(** * FlatFinder: grant calculator, listing classifier, loan rates and
      the preferences editor

    Shallow embedding of
    - [backend/controllers/listing_calculator.py] (functions
      [calculate_grant] and [get_marker_color], read from the compiled
      module [listing_calculator.cpython-311.pyc]),
    - [getInterestRate] of the map screen, and
    - [isValidDecimal], [handleSavePreferences], [formatAmount] and
      [checkGrantEligibility] of [EditPreferencesScreen],
    and further of
    - [handleSendMessage] of [EditPreferencesScreen],
    - [formatPrice], [toTitleCase], [colorMarker],
      [generateRandomPhoneNumber] and [fetchRoomImage] of the map screen,
    - [handleSignup] and [handleChangePassword], and
    - [generateVerificationCode], [handleSendVerificationCode] and
      [handleVerifyCode] of [ResetPasswordScreen].

    Numbers.  Python floats and JavaScript numbers are modelled by exact
    rationals [Q]; the rounding of binary64 arithmetic and overflow are
    outside the model.  JavaScript's [NaN] and the two infinities, which
    [parseFloat] can produce, are kept as separate values ([jsnum]).
    Python arguments are numbers or strings; strings that [float] reads as
    [inf] or [nan] are outside the model. *)

From Stdlib Require Import QArith ZArith NArith String Ascii List Bool Lia Lqa.
From Stdlib Require Import DecimalString DecimalN DecimalPos Qround.
Import ListNotations.

Local Open Scope string_scope.

(** ** Comparisons on rationals, as booleans *)

Definition Qltb (x y : Q) : bool := negb (Qle_bool y x).

(** ** Decimal digits in strings *)

Module Chars.

Definition is_digit (c : ascii) : bool :=
  (48 <=? nat_of_ascii c)%nat && (nat_of_ascii c <=? 57)%nat.

Definition is_space (c : ascii) : bool :=
  let n := nat_of_ascii c in
  (n =? 32)%nat || ((9 <=? n)%nat && (n <=? 13)%nat).

Fixpoint skip_digits (s : string) : string :=
  match s with
  | String c r => if is_digit c then skip_digits r else s
  | EmptyString => EmptyString
  end.

Fixpoint take_digits (s : string) : string :=
  match s with
  | String c r => if is_digit c then String c (take_digits r) else EmptyString
  | EmptyString => EmptyString
  end.

Fixpoint skip_spaces (s : string) : string :=
  match s with
  | String c r => if is_space c then skip_spaces r else s
  | EmptyString => EmptyString
  end.

(** The number written by a string of digits, after the digits [acc]. *)
Fixpoint digits_value (acc : Z) (s : string) : Z :=
  match s with
  | String c r => digits_value (10 * acc + Z.of_nat (nat_of_ascii c - 48)) r
  | EmptyString => acc
  end.

(** [int . frac] as a rational. *)
Definition decimal_value (int frac : string) : Q :=
  Qmake (digits_value 0 (int ++ frac))
        (Z.to_pos (10 ^ Z.of_nat (String.length frac))).

End Chars.

(** ** The Python side: [listing_calculator.py] *)

Module ListingCalculator.

(** The arguments reach the functions from query parameters and database
    rows: they are numbers or strings. *)
Inductive pyval : Type :=
| PyNum (x : Q)
| PyStr (s : string).


Inductive pyexn : Type := ValueError | TypeError.

(** A call either returns or raises. *)
Inductive outcome (A : Type) : Type :=
| Return (a : A)
| Raise (e : pyexn).
Arguments Return {A} a.
Arguments Raise {A} e.

Definition bind {A B : Type} (m : outcome A) (k : A -> outcome B) : outcome B :=
  match m with
  | Return a => k a
  | Raise e => Raise e
  end.

Notation "x <- m ;; k" := (bind m (fun x => k))
  (at level 61, m at next level, right associativity).

(** [x in ("2-Room", "3-Room", "4-Room")]: membership in a tuple of
    strings, by [==]. *)
Definition in_tuple (x : string) (t : list string) : bool :=
  existsb (String.eqb x) t.

(** The local variables of [calculate_grant] when it returns. *)
Record grant_locals : Type := mk_grant_locals {
  singles_grant : Z;
  enhanced_grant : Z;
  total_grants : Z
}.

(** The body of [calculate_grant] on a numeric salary.  The constants are
    those of the constant table of the code object: 0, 7000, the tuple of
    the three flat types, 40000, "5-Room", 25000, 4500 and 60000.  (One
    byte of each of 40000, 25000, 4500 and 60000 is not legible in the
    compiled module; the legible bytes agree with these values, which are
    also those of [checkGrantEligibility] and of the specification.)
<<
    singles_grant = 0
    enhanced_grant = 0
    if salary <= 7000:
        if flat_type in ("2-Room", "3-Room", "4-Room"):
            singles_grant = 40000
        elif flat_type == "5-Room":
            singles_grant = 25000
        if salary <= 4500:
            enhanced_grant = 60000
    total_grants = singles_grant + enhanced_grant
    return total_grants
>> *)
Definition calculate_grant_locals (salary : Q) (flat_type : string) : grant_locals :=
  let singles_grant0 := 0%Z in
  let enhanced_grant0 := 0%Z in
  let '(singles_grant1, enhanced_grant1) :=
    if Qle_bool salary 7000 then
      let sg :=
        if in_tuple flat_type ["2-Room"; "3-Room"; "4-Room"] then 40000%Z
        else if flat_type =? "5-Room" then 25000%Z
        else singles_grant0 in
      let eg := if Qle_bool salary 4500 then 60000%Z else enhanced_grant0 in
      (sg, eg)
    else (singles_grant0, enhanced_grant0) in
  mk_grant_locals singles_grant1 enhanced_grant1 (singles_grant1 + enhanced_grant1)%Z.

(** [calculate_grant(salary, flat_type)].  The function returns the
    total only.  Its first statement that reads [salary] is the
    comparison [salary <= 7000], which raises [TypeError] on a string. *)
Definition calculate_grant (salary : pyval) (flat_type : string) : outcome Z :=
  match salary with
  | PyNum s => Return (total_grants (calculate_grant_locals s flat_type))
  | PyStr _ => Raise TypeError
  end.

Section Classifier.

(** Python's builtin [float] on a string: [Some x] when the string is a
    numeric literal, [None] when it raises [ValueError]. *)
Variable float_of_str : string -> option Q.

Definition float (v : pyval) : outcome Q :=
  match v with
  | PyNum x => Return x
  | PyStr s =>
      match float_of_str s with
      | Some x => Return x
      | None => Raise ValueError
      end
  end.

(** Modelled from the spec: the float constant that multiplies
    [preferred_price] in the second comparison of [get_marker_color].  Of
    its eight bytes only the last is legible in the compiled module; the
    docstring says "within 5%" and the specification gives 1.05. *)
Definition tolerance : Q := 1.05%Q.

(** [get_marker_color(preferred_price, listing_price, salary, flat_type,
    cpf_oa_balance)]:
<<
    try:
        preferred_price = float(preferred_price)
        listing_price = float(listing_price)
        cpf_oa_balance = float(cpf_oa_balance)
    except ValueError:
        return 'gray'
    total_grants = calculate_grant(salary, flat_type)
    adjusted_price = listing_price - total_grants - cpf_oa_balance
    if adjusted_price <= preferred_price:
        return 'green'
    elif preferred_price < adjusted_price <= preferred_price * 1.05:
        return 'yellow'
    else:
        return 'red'
>> *)
Definition adjusted_price (listing_price : Q) (total_grants : Z) (cpf_oa_balance : Q) : Q :=
  (listing_price - inject_Z total_grants - cpf_oa_balance)%Q.

Definition decide_color (preferred_price adjusted : Q) : string :=
  if Qle_bool adjusted preferred_price then "green"
  else if Qltb preferred_price adjusted
          && Qle_bool adjusted (preferred_price * tolerance)%Q then "yellow"
  else "red".

Definition get_marker_color
    (preferred_price listing_price salary : pyval) (flat_type : string)
    (cpf_oa_balance : pyval) : outcome string :=
  match (p <- float preferred_price ;;
         l <- float listing_price ;;
         c <- float cpf_oa_balance ;;
         Return (p, l, c)) with
  | Raise ValueError => Return "gray"
  | Raise e => Raise e
  | Return (p, l, c) =>
      total <- calculate_grant salary flat_type ;;
      Return (decide_color p (adjusted_price l total c))
  end.

End Classifier.

End ListingCalculator.

(** ** JavaScript numbers and strings *)

Module Js.
Export Chars.

(** A JavaScript number: a finite value, [NaN], or an infinity. *)
Inductive jsnum : Type :=
| JNaN
| JNum (q : Q)
| JPosInf
| JNegInf.


(** [x <= y] *)
Definition jle (x y : jsnum) : bool :=
  match x, y with
  | JNaN, _ | _, JNaN => false
  | JNegInf, _ => true
  | _, JPosInf => true
  | JNum a, JNum b => Qle_bool a b
  | JPosInf, _ => false
  | JNum _, JNegInf => false
  end.

(** [x < y] *)
Definition jlt (x y : jsnum) : bool :=
  match x, y with
  | JNaN, _ | _, JNaN => false
  | JNegInf, JNegInf => false
  | JNegInf, _ => true
  | JPosInf, _ => false
  | JNum _, JPosInf => true
  | JNum a, JNum b => Qltb a b
  | JNum _, JNegInf => false
  end.

(** [x > y] *)
Definition jgt (x y : jsnum) : bool := jlt y x.

(** [!s] on a string: only the empty string is falsy. *)
Definition falsy (s : string) : bool := s =? "".

(** The line feed written [\n] in the source's template literals. *)
Definition LF : string := String (ascii_of_nat 10) EmptyString.

End Js.

(** ** The map screen: [getInterestRate] *)

Module MapScreen.
Import Js.

(**
<<
    const getInterestRate = (loanType, loanTenure) => {
        if (loanType === "HDB Housing Loan") {
            return "2.6% per annum";
        } else if (loanType === "DBS 5 Year Fixed Package") {
            if (loanTenure <= 5) {
                return "2.5% per annum for the first 5 years";
            } else {
                return "2.5% per annum for the first 5 years, then 4.48% per annum";
            }
        }
        return "Unknown Loan Type";
    };
>> *)
Definition getInterestRate (loanType : string) (loanTenure : jsnum) : string :=
  if loanType =? "HDB Housing Loan" then "2.6% per annum"
  else if loanType =? "DBS 5 Year Fixed Package" then
    if jle loanTenure (JNum 5) then "2.5% per annum for the first 5 years"
    else "2.5% per annum for the first 5 years, then 4.48% per annum"
  else "Unknown Loan Type".

End MapScreen.

(** ** The preferences editor: [EditPreferencesScreen] *)

Module EditPreferences.
Import Js.

Definition BACKEND_URL : string := "http://127.0.0.1:8000".

(** The pieces of component state the handlers below read or set. *)
Record state : Type := mk_state {
  editMode : bool;
  salary : string;
  cpfBalance : string;
  hdbType : string;
  preferredPrice : string;
  housingLoanType : string;
  errorMessage : string;
  userEmail : string
}.

Definition setErrorMessage (m : string) (st : state) : state :=
  mk_state (editMode st) (salary st) (cpfBalance st) (hdbType st)
           (preferredPrice st) (housingLoanType st) m (userEmail st).

Definition setEditMode (b : bool) (st : state) : state :=
  mk_state b (salary st) (cpfBalance st) (hdbType st)
           (preferredPrice st) (housingLoanType st) (errorMessage st) (userEmail st).

(** The body of the POST request. *)
Record updatedData : Type := mk_updatedData {
  ud_salary : jsnum;
  ud_cpf_balance : jsnum;
  ud_hdb_type : string;
  ud_preferred_price : jsnum;
  ud_housing_loan_type : string
}.

(** What a handler does to the world outside the component state. *)
Inductive effect : Type :=
| fetch_POST (url : string) (body : updatedData)
| Alert_alert (title message : string)
| console_error (message : string).

(** How the backend answers the POST. *)
Inductive response : Type :=
| response_ok
| response_not_ok
| fetch_rejected.

(** [const isValidDecimal = (value) => /^\d+(\.\d{1,2})?$/.test(value);] *)
Definition isValidDecimal (value : string) : bool :=
  match value with
  | EmptyString => false
  | String c r =>
      is_digit c &&
      match skip_digits r with
      | EmptyString => true
      | String "."%char (String d1 EmptyString) => is_digit d1
      | String "."%char (String d1 (String d2 EmptyString)) =>
          is_digit d1 && is_digit d2
      | _ => false
      end
  end.

(** Commas before every group of three trailing digits: the effect of
    [.replace(/\B(?=(\d{3})+(?!\d))/g, ",")] on a string of digits. *)
Fixpoint group_thousands (digits : string) : string :=
  match digits with
  | EmptyString => EmptyString
  | String c r =>
      String c
        (if negb (falsy r) && (String.length r mod 3 =? 0)%nat
         then "," ++ group_thousands r
         else group_thousands r)
  end.

(** [formatAmount(amount)], on the non-negative integers it is called with. *)
Definition formatAmount (amount : N) : string :=
  group_thousands (NilZero.string_of_uint (N.to_uint amount)).

Section Handlers.

(** JavaScript's global [parseFloat] on a string. *)
Variable parseFloat : string -> jsnum.

(**
<<
    const handleSavePreferences = async () => {
        setErrorMessage('');
        if (!salary || !cpfBalance || !hdbType || !preferredPrice || !housingLoanType) {
            setErrorMessage('Please fill out all fields.');
            return;
        }
        if (housingLoanType === 'HDB Housing Loan' && parseFloat(salary) > 7000) {
            setErrorMessage('HDB Loan is only allowed if salary is less than or equal to 7000.');
            return;
        }
        if (!isValidDecimal(preferredPrice) || parseFloat(preferredPrice) < 200000) {
            setErrorMessage('Preferred price must be $200,000 or more.');
            return;
        }
        if (!isValidDecimal(salary) || parseFloat(salary) <= 0) { ... return; }
        if (!isValidDecimal(cpfBalance) || parseFloat(cpfBalance) <= 0) { ... return; }
        if (!isValidDecimal(preferredPrice) || parseFloat(preferredPrice) <= 0) { ... return; }
        const updatedData = { ... };
        try {
            const response = await fetch(`${BACKEND_URL}/user/preferences/${userEmail}`,
                                         { method: 'POST', ... });
            if (!response.ok) throw new Error("Failed to update preferences");
            Alert.alert('Success', 'Preferences updated successfully!');
            setEditMode(false);
        } catch (error) {
            console.error("Error updating user data:", error);
            Alert.alert('Error', 'Failed to update preferences.');
        }
    };
>>
    The result is the component state after the handler and the effects
    it issued, in order. *)
Definition handleSavePreferences (resp : response) (st0 : state)
  : state * list effect :=
  let st := setErrorMessage "" st0 in
  if falsy (salary st) || falsy (cpfBalance st) || falsy (hdbType st)
     || falsy (preferredPrice st) || falsy (housingLoanType st) then
    (setErrorMessage "Please fill out all fields." st, [])
  else if (housingLoanType st =? "HDB Housing Loan")
          && jgt (parseFloat (salary st)) (JNum 7000) then
    (setErrorMessage
       "HDB Loan is only allowed if salary is less than or equal to 7000." st, [])
  else if negb (isValidDecimal (preferredPrice st))
          || jlt (parseFloat (preferredPrice st)) (JNum 200000) then
    (setErrorMessage "Preferred price must be $200,000 or more." st, [])
  else if negb (isValidDecimal (salary st))
          || jle (parseFloat (salary st)) (JNum 0) then
    (setErrorMessage
       "Salary must be a positive number with up to 2 decimal places." st, [])
  else if negb (isValidDecimal (cpfBalance st))
          || jle (parseFloat (cpfBalance st)) (JNum 0) then
    (setErrorMessage
       "CPF Balance must be a positive number with up to 2 decimal places." st, [])
  else if negb (isValidDecimal (preferredPrice st))
          || jle (parseFloat (preferredPrice st)) (JNum 0) then
    (setErrorMessage
       "Preferred Price must be a positive number with up to 2 decimal places." st, [])
  else
    let body :=
      mk_updatedData (parseFloat (salary st)) (parseFloat (cpfBalance st))
                     (hdbType st) (parseFloat (preferredPrice st))
                     (housingLoanType st) in
    let post :=
      fetch_POST (BACKEND_URL ++ "/user/preferences/" ++ userEmail st) body in
    match resp with
    | response_ok =>
        (setEditMode false st,
         [post; Alert_alert "Success" "Preferences updated successfully!"])
    | response_not_ok | fetch_rejected =>
        (st,
         [post; console_error "Error updating user data:";
          Alert_alert "Error" "Failed to update preferences."])
    end.

(** The constant [singlesGrant] of [checkGrantEligibility]. *)
Definition singlesGrant (hdbType : string) : N :=
  if (hdbType =? "5-Room") || (hdbType =? "Executive") then 25000%N else 40000%N.

(**
<<
    const checkGrantEligibility = () => {
        if (parseFloat(salary) <= 7000) {
            const singlesGrant = (hdbType === "5-Room" || hdbType === "Executive") ? 25000 : 40000;
            if (parseFloat(salary) <= 4500) {
                const enhancedGrant = 60000;
                const totalGrant = singlesGrant + enhancedGrant;
                return `Eligible for: HDB Singles Grant and Enhanced CPF Housing Grant. \nTotal Amount: $${formatAmount(totalGrant)}`;
            } else {
                return `Eligible for: HDB Singles Grant. \nAmount: $${formatAmount(singlesGrant)}`;
            }
        }
        return "Not eligible for any grants.";
    };
>> *)
Definition checkGrantEligibility (st : state) : string :=
  if jle (parseFloat (salary st)) (JNum 7000) then
    let singlesGrant := singlesGrant (hdbType st) in
    if jle (parseFloat (salary st)) (JNum 4500) then
      let enhancedGrant := 60000%N in
      let totalGrant := (singlesGrant + enhancedGrant)%N in
      "Eligible for: HDB Singles Grant and Enhanced CPF Housing Grant. " ++ LF
        ++ "Total Amount: $" ++ formatAmount totalGrant
    else
      "Eligible for: HDB Singles Grant. " ++ LF
        ++ "Amount: $" ++ formatAmount singlesGrant
  else "Not eligible for any grants.".

End Handlers.

End EditPreferences.


(** ** Decimal literals: concrete readers for the examples

    The theorems below hold for every [float_of_str] and every
    [parseFloat].  The two readers here cover plain decimal literals
    (no exponent, no [inf], [nan] or [Infinity], no underscores) and are
    used to run the functions on concrete strings. *)

Module Literals.
Import Chars Js.

(** An optional sign: the factor it stands for and the rest. *)
Definition read_sign (s : string) : Q * string :=
  match s with
  | String "-"%char r => ((-1)%Q, r)
  | String "+"%char r => (1%Q, r)
  | _ => (1%Q, s)
  end.

(** Python's [float] on an optional sign followed by digits with an
    optional point and fraction, or by a point and digits; [None]
    ([ValueError]) on every other string. *)
Definition float_of_decimal (s : string) : option Q :=
  let '(sign, body) := read_sign s in
  let int := take_digits body in
  match skip_digits body with
  | EmptyString =>
      if falsy int then None else Some (sign * decimal_value int "")%Q
  | String "."%char r =>
      let frac := take_digits r in
      if falsy (skip_digits r) && negb (falsy int && falsy frac)
      then Some (sign * decimal_value int frac)%Q
      else None
  | _ => None
  end.

(** JavaScript's [parseFloat] on decimal literals: leading white space is
    skipped, the longest prefix made of an optional sign, digits, and an
    optional point and fraction is read, the rest is ignored; [NaN] when
    that prefix holds no digit. *)
Definition parseFloat_decimal (s : string) : jsnum :=
  let '(sign, body) := read_sign (skip_spaces s) in
  let int := take_digits body in
  let frac :=
    match skip_digits body with
    | String "."%char r => take_digits r
    | _ => EmptyString
    end in
  if falsy int && falsy frac then JNaN
  else JNum (sign * decimal_value int frac)%Q.

End Literals.

(** ** The classifier as the specification words it

    [classifyListing_spec] follows the specification's algorithm, to be
    compared with [get_marker_color]: the grant and the CPF balance are
    taken off the preferred price, and the listing price is compared
    with the ceiling so obtained. *)

Module Spec.
Import ListingCalculator.



End Spec.

(** ** Editor states used in the examples *)

Module Examples.
Import EditPreferences.

(** The editor with a salary of 8000, an HDB loan and every field filled. *)
Definition over_limit : state :=
  mk_state true "8000" "15000" "4-Room" "300000" "HDB Housing Loan" "" "buyer@example.com".

(** The same, with the CPF balance field left empty. *)
Definition over_limit_no_cpf : state :=
  mk_state true "8000" "" "4-Room" "300000" "HDB Housing Loan" "" "buyer@example.com".

(** A salary of 4000 and an Executive flat. *)
Definition executive_4000 : state :=
  mk_state false "4000" "15000" "Executive" "300000" "DBS 5 Year Fixed Package" ""
           "buyer@example.com".

End Examples.

(** ** JavaScript string operations

    Strings are sequences of one-byte characters: the operations below
    are those of JavaScript on ASCII text. *)

Module JsString.
Import Chars.

(** [s.split(sep)] for a separator of one character. *)
Fixpoint split_on (sep : ascii) (s : string) : list string :=
  match s with
  | EmptyString => [EmptyString]
  | String c r =>
      if Ascii.eqb c sep then EmptyString :: split_on sep r
      else match split_on sep r with
           | w :: ws => String c w :: ws
           | [] => [String c EmptyString]
           end
  end.

(** [words.join(sep)] *)
Fixpoint join (sep : string) (words : list string) : string :=
  match words with
  | [] => EmptyString
  | [w] => w
  | w :: ws => w ++ sep ++ join sep ws
  end.

(** [list.includes(x)], where [x] may be [undefined] ([None]). *)
Definition includes (list : list string) (x : option string) : bool :=
  match x with
  | Some v => existsb (String.eqb v) list
  | None => false
  end.

Definition is_upper (c : ascii) : bool :=
  (65 <=? nat_of_ascii c)%nat && (nat_of_ascii c <=? 90)%nat.

Definition is_lower (c : ascii) : bool :=
  (97 <=? nat_of_ascii c)%nat && (nat_of_ascii c <=? 122)%nat.

Definition lower_char (c : ascii) : ascii :=
  if is_upper c then ascii_of_nat (nat_of_ascii c + 32) else c.

Definition upper_char (c : ascii) : ascii :=
  if is_lower c then ascii_of_nat (nat_of_ascii c - 32) else c.

Fixpoint map_chars (f : ascii -> ascii) (s : string) : string :=
  match s with
  | EmptyString => EmptyString
  | String c r => String (f c) (map_chars f r)
  end.

(** [s.toLowerCase()] and [s.toUpperCase()] *)
Definition toLowerCase (s : string) : string := map_chars lower_char s.
Definition toUpperCase (s : string) : string := map_chars upper_char s.

(** [/[...]/.test(s)]: some character of [s] is in the class. *)
Fixpoint test_class (class : ascii -> bool) (s : string) : bool :=
  match s with
  | EmptyString => false
  | String c r => class c || test_class class r
  end.

(** [x || fallback] on a value that is a string or [undefined]. *)
Definition or_else (x : option string) (fallback : string) : string :=
  match x with
  | Some v => if v =? "" then fallback else v
  | None => fallback
  end.

End JsString.

(** ** Effects and replies shared by the account screens *)

Module Screens.

(** What a handler does outside of its component state.  The body of a
    request is the list of the fields of the object given to
    [JSON.stringify]. *)
Inductive effect : Type :=
| alert (message : string)
| console_error (message : string)
| console_log (message : string)
| fetch_POST (url : string) (body : list (string * string))
| emailjs_send (to_email subject message : string)
| navigate (screen : string)
| navigate_with (screen : string) (params : list (string * string)).

(** The outcome of [fetch] followed by [response.json()]: a response
    with its [ok] flag and the [detail] field of its body, or a rejection
    with the message of the error. *)
Inductive reply : Type :=
| reply_json (ok : bool) (detail : option string)
| reply_error (message : string).

Definition is_request (e : effect) : bool :=
  match e with
  | fetch_POST _ _ => true
  | _ => false
  end.

Definition is_alert (e : effect) : bool :=
  match e with
  | alert _ => true
  | _ => false
  end.

(** The character class of the password checks, written [special] in
    the excerpts below: the double quote and the characters of the string
    that follows it here. *)
Definition special_chars : string :=
  String (ascii_of_nat 34) "!@#$%^&*(),.?:{}|<>".

Fixpoint mem_char (c : ascii) (s : string) : bool :=
  match s with
  | EmptyString => false
  | String d r => Ascii.eqb c d || mem_char c r
  end.

Definition is_special (c : ascii) : bool := mem_char c special_chars.

End Screens.

(** ** The sign-up screen: [handleSignup] *)

Module SignUp.
Import Chars Js JsString Screens.

Record state : Type := mk_state {
  email : string;
  password : string;
  confirmPassword : string;
  loading : bool
}.

Definition setLoading (b : bool) (st : state) : state :=
  mk_state (email st) (password st) (confirmPassword st) b.

Definition allowedDomains : list string := ["gmail.com"; "yahoo.com"; "outlook.com"].

Section Handler.

(** [navigator.onLine] when the handler runs, and [validator.isEmail]. *)
Variable onLine : bool.
Variable isEmail : string -> bool.

(**
<<
  const handleSignup = async () => {
    setLoading(true);
    if (!navigator.onLine) {
      alert("Network error. Please check your internet connection.");
      setLoading(false);
      return;
    }
    const allowedDomains = ['gmail.com', 'yahoo.com', 'outlook.com'];
    const emailDomain = email.split('@')[1];
    if (!validator.isEmail(email) || !allowedDomains.includes(emailDomain)) {
        alert(`Please enter a valid email from one of the following providers: ${allowedDomains.join(', ')}`);
        setLoading(false);
        return;
    }
    if (password !== confirmPassword) { alert('Passwords do not match!'); ... }
    if (password.length < 8) { alert('Password must be at least 8 characters long!'); ... }
    if (!/[A-Z]/.test(password)) { alert('... one uppercase character!'); ... }
    if (!/[a-z]/.test(password)) { alert('... one lowercase character!'); ... }
    if (!/[special]/.test(password)) { alert('... one special character!'); ... }
    if (!/[0-9]/.test(password)) { alert('... one number!'); ... }
    try {
      const response = await fetch('http://127.0.0.1:8000/signup',
                                   { method: 'POST', ..., body: JSON.stringify({ email, password }) });
      const data = await response.json();
      if (!response.ok) {
          throw new Error(data.detail || 'Failed to create account');
      }
      alert('Account created successfully!');
      navigation.navigate('Login');
    } catch (error) {
      alert(`${error.message}`);
    } finally {
      setLoading(false);
    }
  };
>> *)
Definition handleSignup (resp : reply) (st0 : state) : state * list effect :=
  let st := setLoading true st0 in
  let stop (message : string) := (setLoading false st, [alert message]) in
  if negb onLine then
    stop "Network error. Please check your internet connection."
  else
    let emailDomain := nth_error (split_on "@"%char (email st)) 1 in
    if negb (isEmail (email st)) || negb (includes allowedDomains emailDomain) then
      stop ("Please enter a valid email from one of the following providers: "
              ++ join ", " allowedDomains)
    else if negb (password st =? confirmPassword st) then
      stop "Passwords do not match!"
    else if (String.length (password st) <? 8)%nat then
      stop "Password must be at least 8 characters long!"
    else if negb (test_class is_upper (password st)) then
      stop "Password must contain at least one uppercase character!"
    else if negb (test_class is_lower (password st)) then
      stop "Password must contain at least one lowercase character!"
    else if negb (test_class is_special (password st)) then
      stop "Password must contain at least one special character!"
    else if negb (test_class is_digit (password st)) then
      stop "Password must contain at least one number!"
    else
      let post :=
        fetch_POST "http://127.0.0.1:8000/signup"
                   [("email", email st); ("password", password st)] in
      match resp with
      | reply_json true _ =>
          (setLoading false st,
           [post; alert "Account created successfully!"; navigate "Login"])
      | reply_json false detail =>
          (setLoading false st,
           [post; alert (or_else detail "Failed to create account")])
      | reply_error message =>
          (setLoading false st, [post; alert message])
      end.

End Handler.

End SignUp.

(** ** The change-password screen: [handleChangePassword] *)

Module ChangePassword.
Import Chars Js JsString Screens.

(** The component state, with the [email] of the route parameters. *)
Record state : Type := mk_state {
  email : string;
  newPassword : string;
  confirmPassword : string;
  loading : bool
}.

Definition setLoading (b : bool) (st : state) : state :=
  mk_state (email st) (newPassword st) (confirmPassword st) b.

Section Handler.

Variable onLine : bool.

(**
<<
    const handleChangePassword = async () => {
        if (!newPassword || !confirmPassword) { alert('Please fill in all fields.'); return; }
        if (newPassword !== confirmPassword) { alert('Passwords do not match.'); return; }
        if (newPassword.length < 8) { alert('Password must be at least 8 characters long!'); return; }
        if (!/[A-Z]/.test(newPassword)) { alert('... one uppercase character!'); return; }
        if (!/[a-z]/.test(newPassword)) { alert('... one lowercase character!'); return; }
        if (!/[special]/.test(newPassword)) { alert('... one special character!'); return; }
        if (!/[0-9]/.test(newPassword)) { alert('... one number!'); return; }
        setLoading(true);
        if (!navigator.onLine) {
            alert("Network error. Please check your internet connection.");
            setLoading(false);
            return;
        }
        try {
            const response = await fetch('http://127.0.0.1:8000/reset-password',
                { method: 'POST', ..., body: JSON.stringify({ email: email, new_password: newPassword }) });
            const data = await response.json();
            if (response.ok) {
                alert('Password updated successfully!');
                navigation.navigate('Login');
            } else {
                alert(data.detail || 'Failed to update password.');
            }
        } catch (error) {
            console.error('Error resetting password:', error);
            alert('There was an error resetting the password. Please try again.');
        } finally {
            setLoading(false);
        }
    };
>> *)
Definition handleChangePassword (resp : reply) (st : state) : state * list effect :=
  if falsy (newPassword st) || falsy (confirmPassword st) then
    (st, [alert "Please fill in all fields."])
  else if negb (newPassword st =? confirmPassword st) then
    (st, [alert "Passwords do not match."])
  else if (String.length (newPassword st) <? 8)%nat then
    (st, [alert "Password must be at least 8 characters long!"])
  else if negb (test_class is_upper (newPassword st)) then
    (st, [alert "Password must contain at least one uppercase character!"])
  else if negb (test_class is_lower (newPassword st)) then
    (st, [alert "Password must contain at least one lowercase character!"])
  else if negb (test_class is_special (newPassword st)) then
    (st, [alert "Password must contain at least one special character!"])
  else if negb (test_class is_digit (newPassword st)) then
    (st, [alert "Password must contain at least one number!"])
  else
    let st1 := setLoading true st in
    if negb onLine then
      (setLoading false st1,
       [alert "Network error. Please check your internet connection."])
    else
      let post :=
        fetch_POST "http://127.0.0.1:8000/reset-password"
                   [("email", email st1); ("new_password", newPassword st1)] in
      match resp with
      | reply_json true _ =>
          (setLoading false st1,
           [post; alert "Password updated successfully!"; navigate "Login"])
      | reply_json false detail =>
          (setLoading false st1,
           [post; alert (or_else detail "Failed to update password.")])
      | reply_error _ =>
          (setLoading false st1,
           [post; console_error "Error resetting password:";
            alert "There was an error resetting the password. Please try again."])
      end.

End Handler.

End ChangePassword.

(** ** The map screen, continued *)

Module HomeScreen.
Import Chars Js JsString.


(** [word.charAt(0).toUpperCase() + word.slice(1)] *)
Definition capitalize (word : string) : string :=
  match word with
  | EmptyString => EmptyString
  | String c r => String (upper_char c) r
  end.

(**
<<
    const toTitleCase = (str) => {
        return str
            .toLowerCase()
            .split(' ')
            .map(word => word.charAt(0).toUpperCase() + word.slice(1))
            .join(' ');
    };
>> *)
Definition toTitleCase (str : string) : string :=
  join " " (map capitalize (split_on " "%char (toLowerCase str))).

(**
<<
    const colorMarker = (color) => {
        if (color === "green") {
            return '../../assets/marker-green.png';
        } else if (color === "yellow") {
            return '../../assets/marker-yellow.png';
        } else if (color === "red") {
            return '../../assets/marker-red.png';
        } else {
            return 'default';
        }
    }
>> *)
Definition colorMarker (color : string) : string :=
  if color =? "green" then "../../assets/marker-green.png"
  else if color =? "yellow" then "../../assets/marker-yellow.png"
  else if color =? "red" then "../../assets/marker-red.png"
  else "default".

(** [n.toString()] for an integer [n]. *)
Definition int_toString (n : Z) : string := NilZero.string_of_int (Z.to_int n).

(**
<<
    const generateRandomPhoneNumber = () => {
        const firstDigit = Math.random() < 0.5 ? '9' : '8';
        const remainingDigits = Array.from({ length: 7 }, () => Math.floor(Math.random() * 10)).join('');
        return `${firstDigit}${remainingDigits}`;
    };
>>
    [random i] is the value of the call number [i] to [Math.random]. *)
Definition generateRandomPhoneNumber (random : nat -> Q) : string :=
  let firstDigit := if Qltb (random 0%nat) 0.5 then "9" else "8" in
  let remainingDigits :=
    join "" (map (fun i => int_toString (Qfloor (random i * 10)))
                 (seq 1 7)) in
  firstDigit ++ remainingDigits.

End HomeScreen.

(** ** The reset-password screen: the verification code *)

Module ResetPassword.

(** The number drawn by [generateVerificationCode]:
    [Math.floor(100000 + Math.random() * 900000)]. *)
Definition verification_code (random : Q) : Z :=
  Qfloor (100000 + random * 900000).

(** The string it stores and returns: [code.toString()]. *)
Definition generateVerificationCode (random : Q) : string :=
  HomeScreen.int_toString (verification_code random).

(** A check, run once, that every number from 100000 to 999999 is
    written with six characters. *)
Definition six_characters (n : N) : bool :=
  (String.length (NilZero.string_of_uint (N.to_uint n)) =? 6)%nat.

Definition check_step (st : N * bool) : N * bool :=
  let '(k, ok) := st in (N.succ k, ok && six_characters k).

(** The component state of [ResetPasswordScreen]. *)
Record state : Type := mk_state {
  email : string;
  verificationCode : string;
  generatedCode : string;
  isCodeSent : bool;
  loading : bool;
  verifying : bool
}.

(** [useState] initial values. *)
Definition initial : state := mk_state "" "" "" false false false.

Definition setEmail (v : string) (st : state) : state :=
  mk_state v (verificationCode st) (generatedCode st) (isCodeSent st)
           (loading st) (verifying st).

Definition setVerificationCode (v : string) (st : state) : state :=
  mk_state (email st) v (generatedCode st) (isCodeSent st)
           (loading st) (verifying st).

Definition setGeneratedCode (v : string) (st : state) : state :=
  mk_state (email st) (verificationCode st) v (isCodeSent st)
           (loading st) (verifying st).

Definition setIsCodeSent (b : bool) (st : state) : state :=
  mk_state (email st) (verificationCode st) (generatedCode st) b
           (loading st) (verifying st).

Definition setLoading (b : bool) (st : state) : state :=
  mk_state (email st) (verificationCode st) (generatedCode st) (isCodeSent st)
           b (verifying st).

(** The answer to the request of [handleSendVerificationCode]: a
    response with its [ok] flag and the [exists] field of its body, or a
    rejection. *)
Inductive verify_reply : Type :=
| verify_json (ok : bool) (account_exists : bool)
| verify_error.

(**
<<
    const handleSendVerificationCode = async () => {
        if (!email) { alert('Please enter your email.'); return; }
        setLoading(true);
        if (!navigator.onLine) {
            alert("Network error. Please check your internet connection.");
            setLoading(false);
            return;
        }
        try {
            const response = await fetch('http://127.0.0.1:8000/verify-user',
                { method: 'POST', ..., body: JSON.stringify({ email }) });
            const data = await response.json();
            if (response.ok && data.exists) {
                const code = generateVerificationCode();
                SendEmail({ to_email: email,
                            subject: 'Password Reset Verification Code',
                            message: `Your verification code is: ${code}` });
                setIsCodeSent(true);
            } else if (response.ok && !data.exists) {
                alert('No account found with this email.');
            } else {
                alert('Error verifying user. Please try again.');
            }
        } catch (error) {
            console.error('Error verifying email:', error);
            alert('There was an error verifying the email. Please try again.');
        } finally {
            setLoading(false);
        }
    };
>>
    with [generateVerificationCode], which stores the code, logs it and
    shows an alert, and [SendEmail], which hands the message to
    [emailjs.send], unfolded in place.  [random] is the value returned by
    [Math.random]. *)
Definition handleSendVerificationCode
    (onLine : bool) (resp : verify_reply) (random : Q) (st : state)
  : state * list Screens.effect :=
  if Js.falsy (email st) then
    (st, [Screens.alert "Please enter your email."])
  else
    let st1 := setLoading true st in
    if negb onLine then
      (setLoading false st1,
       [Screens.alert "Network error. Please check your internet connection."])
    else
      let post :=
        Screens.fetch_POST "http://127.0.0.1:8000/verify-user"
                           [("email", email st1)] in
      match resp with
      | verify_json true true =>
          let code := generateVerificationCode random in
          (setLoading false (setIsCodeSent true (setGeneratedCode code st1)),
           [post;
            Screens.console_log
              ("Verification code sent to " ++ email st1 ++ ": " ++ code);
            Screens.alert
              ("A verification code has been sent to your email: " ++ email st1);
            Screens.emailjs_send (email st1) "Password Reset Verification Code"
                                 ("Your verification code is: " ++ code)])
      | verify_json true false =>
          (setLoading false st1,
           [post; Screens.alert "No account found with this email."])
      | verify_json false _ =>
          (setLoading false st1,
           [post; Screens.alert "Error verifying user. Please try again."])
      | verify_error =>
          (setLoading false st1,
           [post; Screens.console_error "Error verifying email:";
            Screens.alert
              "There was an error verifying the email. Please try again."])
      end.

(**
<<
    const handleVerifyCode = () => {
        if (verificationCode === generatedCode) {
            setVerifying(true);
            setTimeout(() => {
                alert('Code verified! You can now reset your password.');
                setVerifying(false);
                navigation.navigate('Change', {email: email});
            }, 1000);
        } else {
            alert('Incorrect verification code. Please try again.');
        }
    };
>>
    The result is taken once the timer has fired: [verifying] is off
    again. *)
Definition handleVerifyCode (st : state) : state * list Screens.effect :=
  if verificationCode st =? generatedCode st then
    (st,
     [Screens.alert "Code verified! You can now reset your password.";
      Screens.navigate_with "Change" [("email", email st)]])
  else
    (st, [Screens.alert "Incorrect verification code. Please try again."]).

(** What the user can do on the screen.  The code field (at most six
    characters) and the Verify button are rendered once a code is sent;
    the Send button before that. *)
Inductive action : Type :=
| type_email (text : string)
| type_code (text : string)
| press_send (onLine : bool) (resp : verify_reply) (random : Q)
| press_verify.

Definition available (a : action) (st : state) : bool :=
  match a with
  | type_email _ => true
  | type_code text => isCodeSent st && (String.length text <=? 6)%nat
  | press_send _ _ _ => negb (isCodeSent st) && negb (loading st)
  | press_verify => isCodeSent st && negb (verifying st)
  end.

Definition step (a : action) (st : state) : state * list Screens.effect :=
  if available a st then
    match a with
    | type_email text => (setEmail text st, [])
    | type_code text => (setVerificationCode text st, [])
    | press_send onLine resp random =>
        handleSendVerificationCode onLine resp random st
    | press_verify => handleVerifyCode st
    end
  else (st, []).

(** A session: the state reached and everything done, in order. *)
Fixpoint run (actions : list action) (st : state) : state * list Screens.effect :=
  match actions with
  | [] => (st, [])
  | a :: rest =>
      let '(st1, done1) := step a st in
      let '(st2, done2) := run rest st1 in
      (st2, (done1 ++ done2)%list)
  end.


End ResetPassword.

(** ** The preferences editor, continued: the chat *)

Module Chat.
Import Chars Js.



Record chat_message : Type := mk_message {
  text : string;
  sender : string
}.

(** The editor's state with the chat: the preferences, the messages,
    the text being typed and the loading flag. *)
Record state : Type := mk_state {
  preferences : EditPreferences.state;
  chatMessages : list chat_message;
  userMessage : string;
  loading : bool
}.

(** The body of the chat request. *)
Record chat_request : Type := mk_request {
  user_input : string;
  user_preferences : list (string * string);
  history : list chat_message
}.

Inductive effect : Type :=
| fetch_POST (url : string) (body : chat_request)
| scrollToEnd
| console_error (message : string).

(** The answer of the chat server: a response with its [ok] flag and
    the [response] field of its body, or a rejection. *)
Inductive reply : Type :=
| reply_json (ok : bool) (response : string)
| reply_error.


End Chat.

(** ** The map screen, continued: the image of a listing *)

Module RoomImages.
Import Js.

(** The object kept under the key [globalAssignedImages]: for each
    address, the index of its image, in the order the addresses were
    added. *)
Definition images_object : Type := list (string * nat).

(** [object[key]] *)
Fixpoint lookup (key : string) (object : images_object) : option nat :=
  match object with
  | [] => None
  | (k, v) :: rest => if k =? key then Some v else lookup key rest
  end.

(** [object[key] = value] *)
Fixpoint assign (key : string) (value : nat) (object : images_object)
  : images_object :=
  match object with
  | [] => [(key, value)]
  | (k, v) :: rest =>
      if k =? key then (k, value) :: rest else (k, v) :: assign key value rest
  end.

(** [Object.values(object)] *)
Definition values (object : images_object) : list nat := map snd object.

(** The indices of [propertyImages] that no address holds. *)
Definition availableIndices (n_images : nat) (object : images_object) : list nat :=
  filter (fun index => negb (existsb (Nat.eqb index) (values object)))
         (seq 0 n_images).

Inductive effect : Type :=
| setItem (object : images_object)
| console_error (message : string).

(**
<<
    const fetchRoomImage = async(marker) => {
        let assignedImages = await AsyncStorage.getItem('globalAssignedImages');
        assignedImages = assignedImages ? JSON.parse(assignedImages) : {};
        const addressKey = `${marker.block} ${marker.street_name}`;
        if (assignedImages[addressKey]) {
            return propertyImages[assignedImages[addressKey]];
        } else {
            const availableIndices = propertyImages.map((_, index) => index)
                .filter(index => !Object.values(assignedImages).includes(index));
            if (availableIndices.length === 0) {
                console.error('No more unique images available');
                return null;
            }
            const randomIndex = availableIndices[Math.floor(Math.random() * availableIndices.length)];
            assignedImages[addressKey] = randomIndex;
            await AsyncStorage.setItem('globalAssignedImages', JSON.stringify(assignedImages));
            return propertyImages[randomIndex];
        }
    };
>>
    [propertyImages] is the list of [propertyimages.json]; [stored] is the
    object read from the storage, [None] when the key is absent; [random]
    is the value of [Math.random], in the interval from 0 to 1, 1
    excluded.  The result is the image returned ([None] for [null] and for
    an index outside the list) and the effects. *)
Definition fetchRoomImage
    (propertyImages : list string) (random : Q)
    (block street_name : string) (stored : option images_object)
  : option string * list effect :=
  let assignedImages := match stored with Some o => o | None => [] end in
  let addressKey := block ++ " " ++ street_name in
  match lookup addressKey assignedImages with
  | Some (S i) => (nth_error propertyImages (S i), [])
  | _ =>
      let available := availableIndices (List.length propertyImages) assignedImages in
      if (List.length available =? 0)%nat then
        (None, [console_error "No more unique images available"])
      else
        let randomIndex :=
          nth (Z.to_nat (Qfloor (random * inject_Z (Z.of_nat (List.length available)))))
              available 0%nat in
        (nth_error propertyImages randomIndex,
         [setItem (assign addressKey randomIndex assignedImages)])
  end.

End RoomImages.

(** ** Conditions used to state the properties *)

Module Conditions.
Import Chars Js JsString Screens.

(** The password rules shared by the sign-up and the change-password
    screens. *)
Definition strong_password (pw : string) : Prop :=
  (8 <= String.length pw)%nat /\
  test_class is_upper pw = true /\
  test_class is_lower pw = true /\
  test_class is_special pw = true /\
  test_class is_digit pw = true.

(** Every character of the string is a decimal digit. *)
Definition all_digits (s : string) : Prop :=
  Forall (fun c => is_digit c = true) (list_ascii_of_string s).


Section Save.
Import EditPreferences.

Variable parseFloat : string -> jsnum.

(** What the editor requires of its fields before it sends them. *)
Definition save_checks (st : state) : Prop :=
  salary st <> "" /\ cpfBalance st <> "" /\ hdbType st <> "" /\
  preferredPrice st <> "" /\ housingLoanType st <> "" /\
  (housingLoanType st = "HDB Housing Loan" ->
   jgt (parseFloat (salary st)) (JNum 7000) = false) /\
  isValidDecimal (preferredPrice st) = true /\
  jlt (parseFloat (preferredPrice st)) (JNum 200000) = false /\
  isValidDecimal (salary st) = true /\
  jle (parseFloat (salary st)) (JNum 0) = false /\
  isValidDecimal (cpfBalance st) = true /\
  jle (parseFloat (cpfBalance st)) (JNum 0) = false.

(** The request the editor sends. *)
Definition save_request (st : state) : effect :=
  EditPreferences.fetch_POST
    (BACKEND_URL ++ "/user/preferences/" ++ userEmail st)
    (mk_updatedData (parseFloat (salary st)) (parseFloat (cpfBalance st))
                    (hdbType st) (parseFloat (preferredPrice st))
                    (housingLoanType st)).

End Save.

End Conditions.

(** ** Conditions of the account screens *)

Module AccountConditions.
Import Chars Js JsString Screens Conditions.

(** What the sign-up screen requires before it sends the account. *)
Definition signup_checks (onLine : bool) (isEmail : string -> bool)
    (st : SignUp.state) : Prop :=
  onLine = true /\
  isEmail (SignUp.email st) = true /\
  (exists domain,
     nth_error (split_on "@"%char (SignUp.email st)) 1 = Some domain /\
     In domain SignUp.allowedDomains) /\
  SignUp.password st = SignUp.confirmPassword st /\
  strong_password (SignUp.password st).

Definition signup_request (st : SignUp.state) : effect :=
  fetch_POST "http://127.0.0.1:8000/signup"
             [("email", SignUp.email st); ("password", SignUp.password st)].

(** What the change-password screen requires before it sends the new
    password. *)
Definition change_checks (onLine : bool) (st : ChangePassword.state) : Prop :=
  ChangePassword.newPassword st = ChangePassword.confirmPassword st /\
  strong_password (ChangePassword.newPassword st) /\
  onLine = true.

Definition change_request (st : ChangePassword.state) : effect :=
  fetch_POST "http://127.0.0.1:8000/reset-password"
             [("email", ChangePassword.email st);
              ("new_password", ChangePassword.newPassword st)].

(** [toTitleCase] character by character: [start] tells whether the
    next character begins a word. *)
Fixpoint title_walk (start : bool) (s : string) : string :=
  match s with
  | EmptyString => EmptyString
  | String c r =>
      let c' := lower_char c in
      if Ascii.eqb c' " "%char then String " "%char (title_walk true r)
      else String (if start then upper_char c' else c') (title_walk false r)
  end.

End AccountConditions.

(** ** Conditions of the reset-password session *)

Module ResetPasswordConditions.
Import Screens ResetPassword.

(** The message that carries a verification code to an address. *)
Definition code_mail (address code : string) : effect :=
  emailjs_send address "Password Reset Verification Code"
               ("Your verification code is: " ++ code).



End ResetPasswordConditions.

(** * Properties *)

(** ** Comparisons *)

Lemma Qltb_iff (x y : Q) : Qltb x y = true <-> (x < y)%Q.
Proof.
  unfold Qltb. rewrite negb_true_iff.
  split; intro H.
  - apply Qnot_le_lt. intro Hle. apply Qle_bool_iff in Hle. congruence.
  - destruct (Qle_bool y x) eqn:E; [|reflexivity].
    apply Qle_bool_iff in E. exfalso. revert E. apply Qlt_not_le. exact H.
Qed.

Lemma Qle_bool_false_iff (x y : Q) : Qle_bool x y = false <-> (y < x)%Q.
Proof.
  rewrite <- Qltb_iff. unfold Qltb. rewrite negb_true_iff. tauto.
Qed.



(** ** The grant calculator *)

Module ListingCalculatorFacts.
Import ListingCalculator.

Lemma in_tuple_In (x : string) (t : list string) :
  in_tuple x t = true <-> In x t.
Proof.
  unfold in_tuple. rewrite existsb_exists. split.
  - intros [y [Hy Heq]]. apply String.eqb_eq in Heq. subst. exact Hy.
  - intro H. exists x. split; [exact H | apply String.eqb_refl].
Qed.

Lemma in_tuple_not_In (x : string) (t : list string) :
  in_tuple x t = false <-> ~ In x t.
Proof.
  rewrite <- in_tuple_In. destruct (in_tuple x t); split; congruence.
Qed.

(** The three locals, branch by branch. *)
Lemma calculate_grant_locals_low (salary : Q) (flat_type : string) :
  (salary <= 7000)%Q ->
  calculate_grant_locals salary flat_type =
  let sg := if in_tuple flat_type ["2-Room"; "3-Room"; "4-Room"] then 40000%Z
            else if flat_type =? "5-Room" then 25000%Z else 0%Z in
  let eg := if Qle_bool salary 4500 then 60000%Z else 0%Z in
  mk_grant_locals sg eg (sg + eg)%Z.
Proof.
  intro H. apply Qle_bool_iff in H.
  unfold calculate_grant_locals. rewrite H. reflexivity.
Qed.

Lemma calculate_grant_locals_high (salary : Q) (flat_type : string) :
  (7000 < salary)%Q ->
  calculate_grant_locals salary flat_type = mk_grant_locals 0 0 0.
Proof.
  intro H. apply Qle_bool_false_iff in H.
  unfold calculate_grant_locals. rewrite H. reflexivity.
Qed.

Lemma calculate_grant_returns (salary : Q) (flat_type : string) :
  calculate_grant (PyNum salary) flat_type =
  Return (total_grants (calculate_grant_locals salary flat_type)).
Proof. reflexivity. Qed.

(** C3, as amended: for every salary up to 7000 the singles grant is
    40000 for 2-Room, 3-Room and 4-Room, 25000 for 5-Room and 0 for every
    other flat type; for every salary above 7000 it is 0 whatever the flat
    type; and no flat type makes the call raise. *)
Theorem calculate_grant_singles (salary : Q) (flat_type : string) :
  let g := calculate_grant_locals salary flat_type in
  ((salary <= 7000)%Q -> In flat_type ["2-Room"; "3-Room"; "4-Room"] ->
     singles_grant g = 40000%Z) /\
  ((salary <= 7000)%Q -> flat_type = "5-Room" -> singles_grant g = 25000%Z) /\
  ((salary <= 7000)%Q ->
     ~ In flat_type ["2-Room"; "3-Room"; "4-Room"; "5-Room"] ->
     singles_grant g = 0%Z) /\
  ((7000 < salary)%Q -> singles_grant g = 0%Z) /\
  calculate_grant (PyNum salary) flat_type = Return (total_grants g).
Proof.
  cbv zeta. repeat split.
  - intros Hs Hin. rewrite (calculate_grant_locals_low _ _ Hs). cbn zeta.
    apply in_tuple_In in Hin. rewrite Hin. reflexivity.
  - intros Hs ->. rewrite (calculate_grant_locals_low _ _ Hs). reflexivity.
  - intros Hs Hnot. rewrite (calculate_grant_locals_low _ _ Hs). cbn zeta.
    assert (H234 : in_tuple flat_type ["2-Room"; "3-Room"; "4-Room"] = false).
    { apply in_tuple_not_In. intro Hin. apply Hnot.
      destruct Hin as [H|[H|[H|[]]]]; rewrite <- H; simpl; auto. }
    assert (H5 : (flat_type =? "5-Room") = false).
    { apply String.eqb_neq. intro Heq. apply Hnot. rewrite Heq. simpl; auto 6. }
    rewrite H234, H5. reflexivity.
  - intro Hs. rewrite (calculate_grant_locals_high _ _ Hs). reflexivity.
Qed.

Lemma calculate_grant_singles_witness :
  singles_grant (calculate_grant_locals 6000 "3-Room") = 40000%Z /\
  singles_grant (calculate_grant_locals 6000 "5-Room") = 25000%Z /\
  singles_grant (calculate_grant_locals 6000 "1-Room") = 0%Z /\
  singles_grant (calculate_grant_locals 7000.01 "4-Room") = 0%Z.
Proof.
  split; [|split; [|split]].
  - destruct (calculate_grant_singles 6000 "3-Room") as (H & _).
    apply H; [vm_compute; discriminate | simpl; auto].
  - destruct (calculate_grant_singles 6000 "5-Room") as (_ & H & _).
    apply H; [vm_compute; discriminate | reflexivity].
  - destruct (calculate_grant_singles 6000 "1-Room") as (_ & _ & H & _).
    apply H; [vm_compute; discriminate |].
    simpl. intros [E|[E|[E|[E|[]]]]]; discriminate E.
  - destruct (calculate_grant_singles 7000.01 "4-Room") as (_ & _ & _ & H & _).
    apply H. reflexivity.
Defined.

(** C3, as stated, fails above 7000: at salary 8000 a 3-Room flat gets a
    singles grant of 0, not 40000, and the call returns 0. *)
Lemma calculate_grant_singles_counterexample :
  singles_grant (calculate_grant_locals 8000 "3-Room") <> 40000%Z /\
  singles_grant (calculate_grant_locals 8000 "3-Room") = 0%Z /\
  calculate_grant (PyNum 8000) "3-Room" = Return 0%Z.
Proof. vm_compute. repeat split. discriminate. Qed.

(** C4: the enhanced grant is 60000 for a salary up to 4500 and 0 above,
    whatever the flat type; the returned total is the sum of the two
    grants, neither of which is negative; and a salary of 4000 with a
    5-Room flat gives 25000, 60000 and 85000. *)
Theorem calculate_grant_enhanced_and_total (salary : Q) (flat_type : string) :
  let g := calculate_grant_locals salary flat_type in
  ((salary <= 4500)%Q -> enhanced_grant g = 60000%Z) /\
  ((4500 < salary)%Q -> enhanced_grant g = 0%Z) /\
  total_grants g = (singles_grant g + enhanced_grant g)%Z /\
  (0 <= singles_grant g)%Z /\ (0 <= enhanced_grant g)%Z /\
  calculate_grant (PyNum salary) flat_type = Return (total_grants g) /\
  calculate_grant_locals 4000 "5-Room" = mk_grant_locals 25000 60000 85000.
Proof.
  cbv zeta. rewrite calculate_grant_returns.
  destruct (Qlt_le_dec 7000 salary) as [Hhigh | Hlow].
  - rewrite (calculate_grant_locals_high _ _ Hhigh). simpl.
    repeat split; try lia; try reflexivity.
    intro H. exfalso. revert Hhigh. apply Qle_not_lt.
    apply Qle_trans with (1 := H). discriminate.
  - rewrite (calculate_grant_locals_low _ _ Hlow). cbn zeta.
    cbn [singles_grant enhanced_grant total_grants].
    repeat split; try reflexivity.
    + intro H. apply Qle_bool_iff in H. rewrite H. reflexivity.
    + intro H. apply Qle_bool_false_iff in H. rewrite H. reflexivity.
    + destruct (in_tuple _ _); [lia|]. destruct (_ =? _); lia.
    + destruct (Qle_bool salary 4500); lia.
Qed.

Lemma calculate_grant_enhanced_and_total_witness :
  enhanced_grant (calculate_grant_locals 4500 "Executive") = 60000%Z /\
  enhanced_grant (calculate_grant_locals 4500.01 "2-Room") = 0%Z.
Proof.
  split.
  - destruct (calculate_grant_enhanced_and_total 4500 "Executive") as (H & _).
    apply H. vm_compute; discriminate.
  - destruct (calculate_grant_enhanced_and_total 4500.01 "2-Room") as (_ & H & _).
    apply H. reflexivity.
Defined.

End ListingCalculatorFacts.

(** ** The listing classifier *)

Module ClassifierFacts.
Import ListingCalculator.

Lemma decide_color_green (P A : Q) :
  (A <= P)%Q -> decide_color P A = "green".
Proof.
  intro H. apply Qle_bool_iff in H. unfold decide_color. rewrite H. reflexivity.
Qed.

Lemma decide_color_yellow (P A : Q) :
  (P < A)%Q -> (A <= P * 1.05)%Q -> decide_color P A = "yellow".
Proof.
  intros H1 H2. unfold decide_color, tolerance.
  apply Qle_bool_false_iff in H1 as H1'. rewrite H1'.
  apply Qltb_iff in H1. apply Qle_bool_iff in H2. rewrite H1, H2. reflexivity.
Qed.

Lemma decide_color_red (P A : Q) :
  (P < A)%Q -> (P * 1.05 < A)%Q -> decide_color P A = "red".
Proof.
  intros H1 H2. unfold decide_color, tolerance.
  apply Qle_bool_false_iff in H1. apply Qle_bool_false_iff in H2.
  rewrite H1, H2, andb_false_r. reflexivity.
Qed.

Lemma decide_color_cases (P A : Q) :
  In (decide_color P A) ["green"; "yellow"; "red"].
Proof.
  unfold decide_color.
  destruct (Qle_bool A P); [simpl; auto|].
  destruct (_ && _); simpl; auto.
Qed.

Lemma decide_color_not_gray (P A : Q) : decide_color P A <> "gray".
Proof.
  destruct (decide_color_cases P A) as [H|[H|[H|[]]]]; rewrite <- H; discriminate.
Qed.


Section WithFloat.

Variable float_of_str : string -> option Q.


(** [float] raises nothing but [ValueError]. *)
Lemma float_cases (v : pyval) :
  (exists x, float float_of_str v = Return x) \/ float float_of_str v = Raise ValueError.
Proof.
  destruct v as [x | s]; simpl.
  - left. exists x. reflexivity.
  - destruct (float_of_str s) as [x|]; [left; exists x; reflexivity | right; reflexivity].
Qed.

(** Once the three conversions succeed, the result is that of the
    grant computation followed by the decision. *)
Lemma get_marker_color_converted (p l s c : pyval) (ft : string) (P L C : Q) :
  float float_of_str p = Return P -> float float_of_str l = Return L -> float float_of_str c = Return C ->
  get_marker_color float_of_str p l s ft c =
  (total <- calculate_grant s ft ;; Return (decide_color P (adjusted_price L total C))).
Proof.
  intros Hp Hl Hc. unfold get_marker_color.
  rewrite Hp, Hl, Hc. reflexivity.
Qed.

Lemma get_marker_color_numeric (p l c : pyval) (x : Q) (ft : string) (P L C : Q) :
  float float_of_str p = Return P -> float float_of_str l = Return L -> float float_of_str c = Return C ->
  get_marker_color float_of_str p l (PyNum x) ft c =
  Return (decide_color P
            (adjusted_price L (total_grants (calculate_grant_locals x ft)) C)).
Proof.
  intros Hp Hl Hc. rewrite (get_marker_color_converted _ _ _ _ _ _ _ _ Hp Hl Hc).
  reflexivity.
Qed.

Lemma get_marker_color_ValueError (p l s c : pyval) (ft : string) :
  float float_of_str p = Raise ValueError \/ float float_of_str l = Raise ValueError \/
  float float_of_str c = Raise ValueError ->
  get_marker_color float_of_str p l s ft c = Return "gray".
Proof.
  unfold get_marker_color.
  destruct (float_cases p) as [[P Hp] | Hp]; rewrite Hp; [|reflexivity].
  destruct (float_cases l) as [[L Hl] | Hl]; rewrite Hl; [|reflexivity].
  destruct (float_cases c) as [[C Hc] | Hc]; rewrite Hc; [|reflexivity].
  intros [H | [H | H]]; discriminate H.
Qed.


(** C2, as amended: the classifier returns gray exactly when [float]
    raises [ValueError] on the preferred price, the listing price or the
    CPF balance, whatever the salary and the flat type; the sign of a
    number is not looked at.  When the three convert and the salary is a
    number, the result is green, yellow or red. *)
Theorem get_marker_color_gray_iff (p l s c : pyval) (ft : string) :
  (get_marker_color float_of_str p l s ft c = Return "gray" <->
   float float_of_str p = Raise ValueError \/
   float float_of_str l = Raise ValueError \/
   float float_of_str c = Raise ValueError) /\
  (forall (P L C x : Q),
     float float_of_str p = Return P ->
     float float_of_str l = Return L ->
     float float_of_str c = Return C ->
     s = PyNum x ->
     In (get_marker_color float_of_str p l s ft c)
        [Return "green"; Return "yellow"; Return "red"]).
Proof.
  split; [split|].
  - intro Hgray.
    destruct (float_cases p) as [[P Hp] | Hp]; [|auto].
    destruct (float_cases l) as [[L Hl] | Hl]; [|auto].
    destruct (float_cases c) as [[C Hc] | Hc]; [|auto].
    exfalso.
    rewrite (get_marker_color_converted _ _ _ _ _ _ _ _ Hp Hl Hc) in Hgray.
    destruct s as [x | str]; simpl in Hgray; [|discriminate Hgray].
    injection Hgray as Hgray. revert Hgray. apply decide_color_not_gray.
  - apply get_marker_color_ValueError.
  - intros P L C x Hp Hl Hc ->.
    rewrite (get_marker_color_numeric _ _ _ _ _ _ _ _ Hp Hl Hc).
    destruct (decide_color_cases P
                (adjusted_price L (total_grants (calculate_grant_locals x ft)) C))
      as [H|[H|[H|[]]]]; rewrite <- H; simpl; auto.
Qed.


End WithFloat.

Import Literals.



Lemma get_marker_color_gray_iff_witness :
  get_marker_color float_of_decimal
    (PyNum 500000) (PyStr "abc") (PyStr "no salary") "4-Room" (PyNum 20000)
    = Return "gray" /\
  In (get_marker_color float_of_decimal
        (PyNum 500000) (PyStr "460000") (PyNum 4000) "4-Room" (PyNum 20000))
     [Return "green"; Return "yellow"; Return "red"].
Proof.
  split.
  - apply (get_marker_color_gray_iff float_of_decimal).
    right. left. reflexivity.
  - apply (proj2 (get_marker_color_gray_iff float_of_decimal
                    (PyNum 500000) (PyStr "460000") (PyNum 4000) (PyNum 20000)
                    "4-Room") 500000 460000 20000 4000);
      reflexivity.
Defined.

(** C2, as stated, fails: a CPF balance of -20000, given as a number or
    as the string "-20000", is not a non-negative real, and the
    classifier answers red, not gray. *)
Lemma get_marker_color_gray_counterexample :
  get_marker_color float_of_decimal
    (PyNum 300000) (PyNum 350000) (PyNum 5000) "4-Room" (PyNum (-20000))
    = Return "red" /\
  get_marker_color float_of_decimal
    (PyStr "300000") (PyStr "350000") (PyNum 5000) "4-Room" (PyStr "-20000")
    = Return "red".
Proof. vm_compute. split; reflexivity. Qed.

(** A salary that is a string is not converted: the comparison with 7000
    in [calculate_grant] raises. *)
Example get_marker_color_salary_string :
  get_marker_color float_of_decimal
    (PyNum 300000) (PyNum 350000) (PyStr "abc") "4-Room" (PyNum 20000)
    = Raise TypeError.
Proof. reflexivity. Qed.



End ClassifierFacts.

(** ** The loan rate table *)

Module MapScreenFacts.
Import Js MapScreen.

Lemma jgt_not_jle (x : jsnum) (q : Q) :
  jgt x (JNum q) = true -> jle x (JNum q) = false.
Proof.
  destruct x as [| a | |]; simpl; try discriminate; try reflexivity.
  unfold Qltb. intro H. apply negb_true_iff in H. exact H.
Qed.

Lemma jle_not_jgt (x : jsnum) (q : Q) :
  jle x (JNum q) = true -> jgt x (JNum q) = false.
Proof.
  destruct x as [| a | |]; simpl; try discriminate; try reflexivity.
  unfold Qltb. intro H. rewrite H. reflexivity.
Qed.


(** C6: the resolver returns a string for every loan type and tenure,
    one of the four of the table: the HDB rate whatever the tenure, the
    DBS rate of the first five years up to a tenure of 5 and the two-step
    DBS rate above, and "Unknown Loan Type" for any other loan type. *)
Theorem getInterestRate_table (loanType : string) (tenureYears : jsnum) :
  getInterestRate "HDB Housing Loan" tenureYears = "2.6% per annum" /\
  (jle tenureYears (JNum 5) = true ->
   getInterestRate "DBS 5 Year Fixed Package" tenureYears
     = "2.5% per annum for the first 5 years") /\
  (jgt tenureYears (JNum 5) = true ->
   getInterestRate "DBS 5 Year Fixed Package" tenureYears
     = "2.5% per annum for the first 5 years, then 4.48% per annum") /\
  (loanType <> "HDB Housing Loan" -> loanType <> "DBS 5 Year Fixed Package" ->
   getInterestRate loanType tenureYears = "Unknown Loan Type") /\
  In (getInterestRate loanType tenureYears)
     ["2.6% per annum";
      "2.5% per annum for the first 5 years";
      "2.5% per annum for the first 5 years, then 4.48% per annum";
      "Unknown Loan Type"].
Proof.
  split; [reflexivity|].
  split; [intro H; unfold getInterestRate; simpl; rewrite H; reflexivity|].
  split.
  { intro H. apply jgt_not_jle in H. unfold getInterestRate. simpl.
    rewrite H. reflexivity. }
  split.
  - intros H1 H2. apply String.eqb_neq in H1, H2.
    unfold getInterestRate. rewrite H1, H2. reflexivity.
  - unfold getInterestRate.
    destruct (loanType =? "HDB Housing Loan"); [simpl; auto|].
    destruct (loanType =? "DBS 5 Year Fixed Package"); [|simpl; auto].
    destruct (jle tenureYears (JNum 5)); simpl; auto.
Qed.

Lemma getInterestRate_table_witness :
  getInterestRate "DBS 5 Year Fixed Package" (JNum 5)
    = "2.5% per annum for the first 5 years" /\
  getInterestRate "DBS 5 Year Fixed Package" (JNum 10)
    = "2.5% per annum for the first 5 years, then 4.48% per annum" /\
  getInterestRate "Unrecognized" (JNum 5) = "Unknown Loan Type".
Proof.
  split; [|split].
  - destruct (getInterestRate_table "" (JNum 5)) as (_ & H & _).
    apply H. reflexivity.
  - destruct (getInterestRate_table "" (JNum 10)) as (_ & _ & H & _).
    apply H. reflexivity.
  - destruct (getInterestRate_table "Unrecognized" (JNum 5)) as (_ & _ & _ & H & _).
    apply H; discriminate.
Defined.

End MapScreenFacts.

(** ** The preferences editor *)

Module EditPreferencesFacts.
Import Js EditPreferences Literals Examples.

Section WithParseFloat.

Variable parseFloat : string -> jsnum.

Lemma falsy_false (s : string) : s <> "" -> falsy s = false.
Proof. intro H. apply String.eqb_neq. exact H. Qed.

Lemma falsy_true (s : string) : s = "" -> falsy s = true.
Proof. intros ->. reflexivity. Qed.

(** C8: when the salary reads as at most 7000, the singles grant of the
    display is 25000 exactly for the types "5-Room" and "Executive" and
    40000 for every other type, "1-Room", "2-Room" and the empty string
    among them; the message shows that grant, with the enhanced grant of
    60000 added when the salary reads as at most 4500. *)
Theorem checkGrantEligibility_singles (st : state) :
  jle (parseFloat (salary st)) (JNum 7000) = true ->
  (singlesGrant (hdbType st) = 25000%N <->
   hdbType st = "5-Room" \/ hdbType st = "Executive") /\
  (hdbType st <> "5-Room" -> hdbType st <> "Executive" ->
   singlesGrant (hdbType st) = 40000%N) /\
  singlesGrant "1-Room" = 40000%N /\
  singlesGrant "2-Room" = 40000%N /\
  singlesGrant "" = 40000%N /\
  checkGrantEligibility parseFloat st =
    (if jle (parseFloat (salary st)) (JNum 4500)
     then "Eligible for: HDB Singles Grant and Enhanced CPF Housing Grant. "
            ++ LF ++ "Total Amount: $"
            ++ formatAmount (singlesGrant (hdbType st) + 60000)
     else "Eligible for: HDB Singles Grant. "
            ++ LF ++ "Amount: $" ++ formatAmount (singlesGrant (hdbType st))).
Proof.
  intro H7000.
  split; [|split; [|repeat split]].
  - unfold singlesGrant. split.
    + destruct (hdbType st =? "5-Room") eqn:E5.
      * intros _. left. apply String.eqb_eq. exact E5.
      * destruct (hdbType st =? "Executive") eqn:Ee; simpl.
        -- intros _. right. apply String.eqb_eq. exact Ee.
        -- discriminate.
    + intros [-> | ->]; reflexivity.
  - intros H5 He. apply String.eqb_neq in H5, He.
    unfold singlesGrant. rewrite H5, He. reflexivity.
  - unfold checkGrantEligibility. rewrite H7000. reflexivity.
Qed.

(** C9: when the salary reads as more than 7000, the display says that
    no grant applies, whatever the flat type. *)
Theorem checkGrantEligibility_above_7000 (st : state) :
  jgt (parseFloat (salary st)) (JNum 7000) = true ->
  checkGrantEligibility parseFloat st = "Not eligible for any grants.".
Proof.
  intro H. apply MapScreenFacts.jgt_not_jle in H.
  unfold checkGrantEligibility. rewrite H. reflexivity.
Qed.

(** C10, as amended: with an HDB housing loan and a salary that reads as
    more than 7000, saving issues no request at all; when the five fields
    are filled in, the error message is the one about the HDB loan and
    nothing else of the state changes; when one of them is empty the
    message asks to fill out all fields. *)
Theorem handleSavePreferences_HDB_loan (resp : response) (st : state) :
  housingLoanType st = "HDB Housing Loan" ->
  jgt (parseFloat (salary st)) (JNum 7000) = true ->
  snd (handleSavePreferences parseFloat resp st) = [] /\
  (salary st <> "" -> cpfBalance st <> "" -> hdbType st <> "" ->
   preferredPrice st <> "" ->
   handleSavePreferences parseFloat resp st =
     (setErrorMessage
        "HDB Loan is only allowed if salary is less than or equal to 7000." st,
      [])) /\
  (salary st = "" \/ cpfBalance st = "" \/ hdbType st = "" \/
   preferredPrice st = "" ->
   handleSavePreferences parseFloat resp st =
     (setErrorMessage "Please fill out all fields." st, [])).
Proof.
  intros Hloan Hsalary.
  unfold handleSavePreferences. cbn zeta.
  cbn [setErrorMessage salary cpfBalance hdbType preferredPrice
       housingLoanType editMode userEmail errorMessage].
  rewrite Hloan, Hsalary. cbn [String.eqb Ascii.eqb Bool.eqb andb].
  split; [|split].
  - destruct (falsy (salary st) || falsy (cpfBalance st) || falsy (hdbType st)
              || falsy (preferredPrice st) || falsy "HDB Housing Loan");
      reflexivity.
  - intros H1 H2 H3 H4.
    rewrite !falsy_false by assumption. reflexivity.
  - intros [H | [H | [H | H]]]; rewrite (falsy_true _ H);
      rewrite ?orb_true_r; reflexivity.
Qed.

End WithParseFloat.

Lemma checkGrantEligibility_singles_witness :
  singlesGrant (hdbType executive_4000) = 25000%N /\
  checkGrantEligibility parseFloat_decimal executive_4000 =
    "Eligible for: HDB Singles Grant and Enhanced CPF Housing Grant. "
      ++ LF ++ "Total Amount: $85,000".
Proof.
  destruct (checkGrantEligibility_singles parseFloat_decimal executive_4000)
    as (H1 & _ & _ & _ & _ & H2).
  - reflexivity.
  - split.
    + apply H1. right. reflexivity.
    + rewrite H2. reflexivity.
Defined.

Lemma checkGrantEligibility_above_7000_witness :
  checkGrantEligibility parseFloat_decimal over_limit
    = "Not eligible for any grants.".
Proof.
  apply (checkGrantEligibility_above_7000 parseFloat_decimal over_limit).
  reflexivity.
Defined.

Lemma handleSavePreferences_HDB_loan_witness :
  handleSavePreferences parseFloat_decimal response_ok over_limit =
    (setErrorMessage
       "HDB Loan is only allowed if salary is less than or equal to 7000."
       over_limit, []).
Proof.
  destruct (handleSavePreferences_HDB_loan parseFloat_decimal response_ok over_limit)
    as (_ & H & _).
  - reflexivity.
  - reflexivity.
  - apply H; discriminate.
Defined.

(** C10, as stated, fails when another field is empty: the loan is an
    HDB loan and the salary reads as 8000, but with the CPF balance left
    empty the message is the one asking to fill out all fields. *)
Lemma handleSavePreferences_HDB_loan_counterexample :
  housingLoanType over_limit_no_cpf = "HDB Housing Loan" /\
  jgt (parseFloat_decimal (salary over_limit_no_cpf)) (JNum 7000) = true /\
  errorMessage (fst (handleSavePreferences parseFloat_decimal response_ok
                       over_limit_no_cpf))
    = "Please fill out all fields." /\
  errorMessage (fst (handleSavePreferences parseFloat_decimal response_ok
                       over_limit_no_cpf))
    <> "HDB Loan is only allowed if salary is less than or equal to 7000.".
Proof. vm_compute. repeat split. discriminate. Qed.

(** With every check passed the request is sent. *)
Example handleSavePreferences_posts :
  handleSavePreferences parseFloat_decimal response_ok
    (mk_state true "6000" "15000" "4-Room" "300000" "HDB Housing Loan" "old"
              "buyer@example.com")
  = (mk_state false "6000" "15000" "4-Room" "300000" "HDB Housing Loan" ""
              "buyer@example.com",
     [fetch_POST "http://127.0.0.1:8000/user/preferences/buyer@example.com"
        (mk_updatedData (parseFloat_decimal "6000") (parseFloat_decimal "15000")
           "4-Room" (parseFloat_decimal "300000") "HDB Housing Loan");
      Alert_alert "Success" "Preferences updated successfully!"]).
Proof. reflexivity. Qed.

End EditPreferencesFacts.

(** ** Same arguments, same result *)

Module PurityFacts.
Import ListingCalculator Js MapScreen.







End PurityFacts.

(** * Further properties *)

(** ** The classifier and the grant: order *)

Module ClassifierOrder.
Import ListingCalculator.

(** The three cases of the decision. *)
Lemma decide_color_spec (P A : Q) :
  ((A <= P)%Q /\ decide_color P A = "green") \/
  ((P < A)%Q /\ (A <= P * 1.05)%Q /\ decide_color P A = "yellow") \/
  ((P < A)%Q /\ (P * 1.05 < A)%Q /\ decide_color P A = "red").
Proof.
  destruct (Qlt_le_dec P A) as [Hlt | Hle].
  - destruct (Qlt_le_dec (P * 1.05) A) as [Hlt' | Hle'].
    + right. right. auto using ClassifierFacts.decide_color_red.
    + right. left. auto using ClassifierFacts.decide_color_yellow.
  - left. auto using ClassifierFacts.decide_color_green.
Qed.

(** A lower adjusted price, or a higher preferred price, never gives a
    worse colour. *)
Lemma decide_color_mono (P P' A A' : Q) :
  (P' <= P)%Q -> (A <= A')%Q ->
  (decide_color P' A' = "green" -> decide_color P A = "green") /\
  (decide_color P A = "red" -> decide_color P' A' = "red").
Proof.
  intros HP HA.
  destruct (decide_color_spec P A) as [(H1 & E) | [(H1 & H2 & E) | (H1 & H2 & E)]];
  destruct (decide_color_spec P' A')
    as [(H1' & E') | [(H1' & H2' & E') | (H1' & H2' & E')]];
  rewrite E, E'; split; intro H; try discriminate H; try reflexivity;
  exfalso; lra.
Qed.

Lemma total_grants_range (x : Q) (ft : string) :
  In (total_grants (calculate_grant_locals x ft))
     [0; 25000; 40000; 60000; 85000; 100000]%Z.
Proof.
  unfold calculate_grant_locals.
  destruct (Qle_bool x 7000); [|simpl; auto].
  destruct (in_tuple ft _); destruct (ft =? "5-Room"); destruct (Qle_bool x 4500);
    simpl; auto 10.
Qed.

Lemma total_grants_antitone (salary salary' : Q) (flat_type : string) :
  (salary <= salary')%Q ->
  (total_grants (calculate_grant_locals salary' flat_type)
   <= total_grants (calculate_grant_locals salary flat_type))%Z.
Proof.
  intro Hle. unfold calculate_grant_locals.
  destruct (Qle_bool salary' 7000) eqn:E7'.
  - assert (E7 : Qle_bool salary 7000 = true).
    { apply Qle_bool_iff. apply Qle_bool_iff in E7'. lra. }
    rewrite E7.
    destruct (Qle_bool salary' 4500) eqn:E4'.
    + assert (E4 : Qle_bool salary 4500 = true).
      { apply Qle_bool_iff. apply Qle_bool_iff in E4'. lra. }
      rewrite E4. cbn [total_grants]. lia.
    + cbn [total_grants].
      destruct (Qle_bool salary 4500); destruct (in_tuple flat_type _);
        destruct (flat_type =? "5-Room"); lia.
  - cbn [total_grants].
    destruct (Qle_bool salary 7000); [|cbn; lia].
    destruct (Qle_bool salary 4500); destruct (in_tuple flat_type _);
      destruct (flat_type =? "5-Room"); cbn; lia.
Qed.

(** The grant never grows with the salary, and lies between 0 and
    100000. *)
Theorem calculate_grant_antitone (salary salary' : Q) (flat_type : string) :
  (salary <= salary')%Q ->
  let g := total_grants (calculate_grant_locals salary flat_type) in
  let g' := total_grants (calculate_grant_locals salary' flat_type) in
  (g' <= g)%Z /\ (0 <= g' <= 100000)%Z /\
  calculate_grant (PyNum salary) flat_type = Return g /\
  calculate_grant (PyNum salary') flat_type = Return g'.
Proof.
  intros Hle g g'. subst g g'.
  split; [|split; [|split; reflexivity]].
  - apply total_grants_antitone. exact Hle.
  - pose proof (total_grants_range salary' flat_type) as H.
    simpl in H. lia.
Qed.

Lemma calculate_grant_antitone_witness :
  (total_grants (calculate_grant_locals 4500.01 "4-Room")
   <= total_grants (calculate_grant_locals 4500 "4-Room"))%Z.
Proof.
  apply (calculate_grant_antitone 4500 4500.01 "4-Room").
  vm_compute. discriminate.
Defined.

Section WithFloat.

Variable float_of_str : string -> option Q.

(** A dearer listing never gets a better colour: with the other
    arguments fixed, green at the higher price gives green at the lower
    one, and red at the lower price gives red at the higher one. *)
Theorem get_marker_color_listing_price
    (p l l' s c : pyval) (ft : string) (L L' : Q) :
  float float_of_str l = Return L ->
  float float_of_str l' = Return L' ->
  (L <= L')%Q ->
  (get_marker_color float_of_str p l' s ft c = Return "green" ->
   get_marker_color float_of_str p l s ft c = Return "green") /\
  (get_marker_color float_of_str p l s ft c = Return "red" ->
   get_marker_color float_of_str p l' s ft c = Return "red").
Proof.
  intros Hl Hl' Hle.
  destruct (ClassifierFacts.float_cases float_of_str p) as [[P Hp] | Hp];
    [| rewrite !ClassifierFacts.get_marker_color_ValueError by auto;
       split; discriminate].
  destruct (ClassifierFacts.float_cases float_of_str c) as [[C Hc] | Hc];
    [| rewrite !ClassifierFacts.get_marker_color_ValueError by auto;
       split; discriminate].
  rewrite (ClassifierFacts.get_marker_color_converted _ _ _ _ _ _ _ _ _ Hp Hl Hc).
  rewrite (ClassifierFacts.get_marker_color_converted _ _ _ _ _ _ _ _ _ Hp Hl' Hc).
  destruct (calculate_grant s ft) as [t | e]; simpl; [|split; discriminate].
  destruct (decide_color_mono P P (adjusted_price L t C) (adjusted_price L' t C))
    as [Hg Hr].
  - apply Qle_refl.
  - unfold adjusted_price. lra.
  - split; intro H; injection H as H; f_equal; auto.
Qed.

(** More CPF savings, or a higher preferred price, never give a worse
    colour. *)
Theorem get_marker_color_funds
    (p p' l s c c' : pyval) (ft : string) (P P' C C' : Q) :
  float float_of_str p = Return P ->
  float float_of_str p' = Return P' ->
  float float_of_str c = Return C ->
  float float_of_str c' = Return C' ->
  (P <= P')%Q -> (C <= C')%Q ->
  (get_marker_color float_of_str p l s ft c = Return "green" ->
   get_marker_color float_of_str p' l s ft c' = Return "green") /\
  (get_marker_color float_of_str p' l s ft c' = Return "red" ->
   get_marker_color float_of_str p l s ft c = Return "red").
Proof.
  intros Hp Hp' Hc Hc' HP HC.
  destruct (ClassifierFacts.float_cases float_of_str l) as [[L Hl] | Hl];
    [| rewrite !ClassifierFacts.get_marker_color_ValueError by auto;
       split; discriminate].
  rewrite (ClassifierFacts.get_marker_color_converted _ _ _ _ _ _ _ _ _ Hp Hl Hc).
  rewrite (ClassifierFacts.get_marker_color_converted _ _ _ _ _ _ _ _ _ Hp' Hl Hc').
  destruct (calculate_grant s ft) as [t | e]; simpl; [|split; discriminate].
  destruct (decide_color_mono P' P (adjusted_price L t C') (adjusted_price L t C))
    as [Hg Hr].
  - exact HP.
  - unfold adjusted_price. lra.
  - split; intro H; injection H as H; f_equal; auto.
Qed.

(** A lower salary never gives a worse colour: the grant it brings is
    at least as large. *)
Theorem get_marker_color_salary
    (p l c : pyval) (ft : string) (x x' : Q) :
  (x <= x')%Q ->
  (get_marker_color float_of_str p l (PyNum x') ft c = Return "green" ->
   get_marker_color float_of_str p l (PyNum x) ft c = Return "green") /\
  (get_marker_color float_of_str p l (PyNum x) ft c = Return "red" ->
   get_marker_color float_of_str p l (PyNum x') ft c = Return "red").
Proof.
  intro Hx.
  destruct (ClassifierFacts.float_cases float_of_str p) as [[P Hp] | Hp];
    [| rewrite !ClassifierFacts.get_marker_color_ValueError by auto;
       split; discriminate].
  destruct (ClassifierFacts.float_cases float_of_str l) as [[L Hl] | Hl];
    [| rewrite !ClassifierFacts.get_marker_color_ValueError by auto;
       split; discriminate].
  destruct (ClassifierFacts.float_cases float_of_str c) as [[C Hc] | Hc];
    [| rewrite !ClassifierFacts.get_marker_color_ValueError by auto;
       split; discriminate].
  rewrite !(ClassifierFacts.get_marker_color_numeric _ _ _ _ _ _ _ _ _ Hp Hl Hc).
  pose proof (total_grants_antitone x x' ft Hx) as Hg.
  destruct (decide_color_mono P P
              (adjusted_price L (total_grants (calculate_grant_locals x ft)) C)
              (adjusted_price L (total_grants (calculate_grant_locals x' ft)) C))
    as [Hgreen Hred].
  - apply Qle_refl.
  - unfold adjusted_price.
    assert (H : (inject_Z (total_grants (calculate_grant_locals x' ft))
                 <= inject_Z (total_grants (calculate_grant_locals x ft)))%Q).
    { rewrite <- Zle_Qle. exact Hg. }
    lra.
  - split; intro H; injection H as H; f_equal; auto.
Qed.

End WithFloat.

Import Literals.

Lemma get_marker_color_listing_price_witness :
  get_marker_color float_of_decimal
    (PyNum 500000) (PyStr "700000") (PyNum 4000) "4-Room" (PyNum 20000)
    = Return "red" /\
  get_marker_color float_of_decimal
    (PyNum 500000) (PyStr "400000.50") (PyNum 4000) "4-Room" (PyNum 20000)
    = Return "green".
Proof.
  split.
  - destruct (get_marker_color_listing_price float_of_decimal
                (PyNum 500000) (PyNum 645000.01) (PyStr "700000") (PyNum 4000)
                (PyNum 20000) "4-Room" 645000.01 700000 eq_refl eq_refl)
      as (_ & H); [vm_compute; discriminate | apply H; reflexivity].
  - destruct (get_marker_color_listing_price float_of_decimal
                (PyNum 500000) (PyStr "400000.50") (PyNum 460000) (PyNum 4000)
                (PyNum 20000) "4-Room" 400000.50 460000 eq_refl eq_refl)
      as (H & _); [vm_compute; discriminate | apply H; reflexivity].
Defined.

Lemma get_marker_color_funds_witness :
  get_marker_color float_of_decimal
    (PyStr "510000") (PyNum 460000) (PyNum 4000) "4-Room" (PyNum 25000)
    = Return "green".
Proof.
  destruct (get_marker_color_funds float_of_decimal
              (PyNum 500000) (PyStr "510000") (PyNum 460000) (PyNum 4000)
              (PyNum 20000) (PyNum 25000) "4-Room" 500000 510000 20000 25000
              eq_refl eq_refl eq_refl eq_refl)
    as (H & _);
    [vm_compute; discriminate | vm_compute; discriminate | apply H; reflexivity].
Defined.

Lemma get_marker_color_salary_witness :
  get_marker_color float_of_decimal
    (PyNum 500000) (PyNum 560000) (PyNum 4500) "4-Room" (PyNum 20000)
    = Return "green".
Proof.
  destruct (get_marker_color_salary float_of_decimal
              (PyNum 500000) (PyNum 560000) (PyNum 20000) "4-Room" 4500 7000)
    as (H & _); [vm_compute; discriminate | apply H; reflexivity].
Defined.

End ClassifierOrder.

(** ** The preferences editor: the whole of [handleSavePreferences] *)

Module EditPreferencesSave.
Import Js EditPreferences Literals Examples Conditions.

Lemma jle_zero_jlt (x : jsnum) :
  jle x (JNum 0) = true -> jlt x (JNum 200000) = true.
Proof.
  destruct x as [| a | |]; simpl; try discriminate; try reflexivity.
  intro H. apply Qle_bool_iff in H. apply Qltb_iff. lra.
Qed.

Section WithParseFloat.

Variable parseFloat : string -> jsnum.

(** The two ways the handler ends: the checks pass and the request is
    sent, or one of five messages is set and nothing is sent. *)
Lemma handleSavePreferences_cases (resp : response) (st : state) :
  (save_checks parseFloat st /\
   handleSavePreferences parseFloat resp st =
     match resp with
     | response_ok =>
         (setEditMode false (setErrorMessage "" st),
          [save_request parseFloat st;
           Alert_alert "Success" "Preferences updated successfully!"])
     | _ =>
         (setErrorMessage "" st,
          [save_request parseFloat st;
           console_error "Error updating user data:";
           Alert_alert "Error" "Failed to update preferences."])
     end) \/
  (~ save_checks parseFloat st /\
   exists msg,
     In msg ["Please fill out all fields.";
             "HDB Loan is only allowed if salary is less than or equal to 7000.";
             "Preferred price must be $200,000 or more.";
             "Salary must be a positive number with up to 2 decimal places.";
             "CPF Balance must be a positive number with up to 2 decimal places."] /\
     handleSavePreferences parseFloat resp st = (setErrorMessage msg st, [])).
Proof.
  unfold handleSavePreferences. cbn zeta.
  cbn [setErrorMessage salary cpfBalance hdbType preferredPrice
       housingLoanType editMode userEmail errorMessage].
  destruct (falsy (salary st) || falsy (cpfBalance st) || falsy (hdbType st)
            || falsy (preferredPrice st) || falsy (housingLoanType st)) eqn:E1.
  { right. split.
    - intros (H1 & H2 & H3 & H4 & H5 & _).
      unfold falsy in E1.
      apply String.eqb_neq in H1, H2, H3, H4, H5.
      rewrite H1, H2, H3, H4, H5 in E1. discriminate E1.
    - eexists. split; [|reflexivity]. simpl; auto. }
  apply orb_false_iff in E1. destruct E1 as [E1 F5].
  apply orb_false_iff in E1. destruct E1 as [E1 F4].
  apply orb_false_iff in E1. destruct E1 as [E1 F3].
  apply orb_false_iff in E1. destruct E1 as [F1 F2].
  unfold falsy in *.
  destruct ((housingLoanType st =? "HDB Housing Loan")
            && jgt (parseFloat (salary st)) (JNum 7000)) eqn:E2.
  { right. split.
    - intros (_ & _ & _ & _ & _ & H & _).
      apply andb_true_iff in E2. destruct E2 as [E2 E2'].
      apply String.eqb_eq in E2. rewrite (H E2) in E2'. discriminate E2'.
    - eexists. split; [|reflexivity]. simpl; auto. }
  destruct (negb (isValidDecimal (preferredPrice st))
            || jlt (parseFloat (preferredPrice st)) (JNum 200000)) eqn:E3.
  { right. split.
    - intros (_ & _ & _ & _ & _ & _ & H & H' & _).
      rewrite H, H' in E3. discriminate E3.
    - eexists. split; [|reflexivity]. simpl; auto. }
  destruct (negb (isValidDecimal (salary st))
            || jle (parseFloat (salary st)) (JNum 0)) eqn:E4.
  { right. split.
    - intros (_ & _ & _ & _ & _ & _ & _ & _ & H & H' & _).
      rewrite H, H' in E4. discriminate E4.
    - eexists. split; [|reflexivity]. simpl; auto 6. }
  destruct (negb (isValidDecimal (cpfBalance st))
            || jle (parseFloat (cpfBalance st)) (JNum 0)) eqn:E5.
  { right. split.
    - intros (_ & _ & _ & _ & _ & _ & _ & _ & _ & _ & H & H').
      rewrite H, H' in E5. discriminate E5.
    - eexists. split; [|reflexivity]. simpl; auto 7. }
  apply orb_false_iff in E3, E4, E5.
  destruct E3 as [E3 E3'], E4 as [E4 E4'], E5 as [E5 E5'].
  apply negb_false_iff in E3, E4, E5.
  assert (E6 : jle (parseFloat (preferredPrice st)) (JNum 0) = false).
  { destruct (jle (parseFloat (preferredPrice st)) (JNum 0)) eqn:E; [|reflexivity].
    apply jle_zero_jlt in E. congruence. }
  rewrite E3, E6. cbn [negb orb].
  left. split.
  - unfold save_checks.
    repeat split; try assumption; try (apply String.eqb_neq; assumption).
    intro Hloan. rewrite Hloan in E2. simpl in E2. exact E2.
  - destruct resp; reflexivity.
Qed.

(** The handler never touches the five fields nor the account: whatever
    the reply, only the error message and the edit mode can change. *)
Theorem handleSavePreferences_keeps_fields (resp : response) (st : state) :
  let st' := fst (handleSavePreferences parseFloat resp st) in
  salary st' = salary st /\ cpfBalance st' = cpfBalance st /\
  hdbType st' = hdbType st /\ preferredPrice st' = preferredPrice st /\
  housingLoanType st' = housingLoanType st /\ userEmail st' = userEmail st.
Proof.
  cbv zeta.
  destruct (handleSavePreferences_cases resp st) as [[_ E] | [_ (msg & _ & E)]];
    rewrite E; [destruct resp|]; simpl; repeat split.
Qed.


(** The last check of the handler can never fire: the message about a
    positive preferred price is never set, because a preferred price that
    reads as 0 or less has already been refused as below 200000. *)
Theorem handleSavePreferences_dead_check (resp : response) (st : state) :
  errorMessage (fst (handleSavePreferences parseFloat resp st))
  <> "Preferred Price must be a positive number with up to 2 decimal places.".
Proof.
  destruct (handleSavePreferences_cases resp st)
    as [[_ E] | [_ (msg & Hmsg & E)]]; rewrite E.
  - destruct resp; simpl; discriminate.
  - simpl. simpl in Hmsg.
    repeat (destruct Hmsg as [Hmsg | Hmsg]; [rewrite <- Hmsg; discriminate|]).
    contradiction.
Qed.

(** Once the request is sent, the reply decides the rest: on an [ok]
    response edit mode is left and a success alert shown; on any other
    response, or when the request fails, edit mode stays as it was, the
    error is logged and an error alert shown. *)
Theorem handleSavePreferences_reply (resp : response) (st : state) :
  save_checks parseFloat st ->
  let r := handleSavePreferences parseFloat resp st in
  (resp = response_ok ->
   editMode (fst r) = false /\
   snd r = [save_request parseFloat st;
            Alert_alert "Success" "Preferences updated successfully!"]) /\
  (resp <> response_ok ->
   editMode (fst r) = editMode st /\
   snd r = [save_request parseFloat st;
            console_error "Error updating user data:";
            Alert_alert "Error" "Failed to update preferences."]).
Proof.
  intros Hok. cbv zeta.
  destruct (handleSavePreferences_cases resp st)
    as [[_ E] | [Hno _]]; [|contradiction].
  rewrite E. split.
  - intros ->. split; reflexivity.
  - intro Hresp. destruct resp; [contradiction | |]; split; reflexivity.
Qed.


End WithParseFloat.

End EditPreferencesSave.

(** ** Decimal strings: [isValidDecimal], [formatAmount], [formatPrice] *)

Module DecimalStrings.
Import Chars Js EditPreferences Literals Conditions HomeScreen.

Lemma all_digits_nil : all_digits "".
Proof. constructor. Qed.

Lemma all_digits_cons (c : ascii) (s : string) :
  all_digits (String c s) <-> is_digit c = true /\ all_digits s.
Proof.
  unfold all_digits. simpl. split.
  - intro H. inversion H; subst. auto.
  - intros [H1 H2]. constructor; assumption.
Qed.

Lemma take_skip_digits (s : string) : s = take_digits s ++ skip_digits s.
Proof.
  induction s as [|c r IH]; simpl; [reflexivity|].
  destruct (is_digit c); simpl; [f_equal; exact IH | reflexivity].
Qed.

Lemma take_digits_all (s : string) : all_digits (take_digits s).
Proof.
  induction s as [|c r IH]; simpl; [apply all_digits_nil|].
  destruct (is_digit c) eqn:E; [|apply all_digits_nil].
  apply all_digits_cons. auto.
Qed.

Lemma skip_digits_app (a t : string) :
  all_digits a ->
  (t = "" \/ exists c r, t = String c r /\ is_digit c = false) ->
  skip_digits (a ++ t) = t.
Proof.
  intros Ha Ht. induction a as [|c a IH]; simpl.
  - destruct Ht as [-> | (c & r & -> & Hc)]; simpl; [reflexivity|].
    rewrite Hc. reflexivity.
  - apply all_digits_cons in Ha. destruct Ha as [Hc Ha].
    rewrite Hc. auto.
Qed.

(** The regular expression of [isValidDecimal] accepts exactly the
    strings made of one or more digits, optionally followed by a point
    and one or two digits: no sign, no space, no exponent, no bare point. *)
Theorem isValidDecimal_shape (value : string) :
  isValidDecimal value = true <->
  exists int frac : string,
    all_digits int /\ int <> "" /\ all_digits frac /\
    (String.length frac <= 2)%nat /\
    value = int ++ (if frac =? "" then "" else "." ++ frac).
Proof.
  split.
  - destruct value as [|c r]; simpl; [discriminate|].
    intro H. apply andb_true_iff in H. destruct H as [Hc H].
    assert (Hint : all_digits (String c (take_digits r))).
    { apply all_digits_cons. split; [exact Hc | apply take_digits_all]. }
    pose proof (take_skip_digits r) as Hr.
    destruct (skip_digits r) as [|d t] eqn:Et.
    + exists (String c (take_digits r)), "".
      repeat split; try assumption; try discriminate; try apply all_digits_nil.
      * simpl. lia.
      * simpl. f_equal. rewrite Hr at 1. reflexivity.
    + destruct d as [[] [] [] [] [] [] [] []]; try discriminate H.
      destruct t as [|d1 t]; [discriminate H|].
      destruct t as [|d2 t].
      * exists (String c (take_digits r)), (String d1 "").
        repeat split; try assumption; try discriminate.
        -- apply all_digits_cons. split; [exact H | apply all_digits_nil].
        -- simpl. lia.
        -- simpl. f_equal. rewrite Hr at 1. reflexivity.
      * destruct t as [|d3 t]; [|discriminate H].
        apply andb_true_iff in H. destruct H as [H1 H2].
        exists (String c (take_digits r)), (String d1 (String d2 "")).
        repeat split; try assumption; try discriminate.
        -- apply all_digits_cons. split; [exact H1|].
           apply all_digits_cons. split; [exact H2 | apply all_digits_nil].
        -- simpl. lia.
        -- simpl. f_equal. rewrite Hr at 1. reflexivity.
  - intros (int & frac & Hint & Hne & Hfrac & Hlen & ->).
    destruct int as [|c i]; [contradiction|].
    apply all_digits_cons in Hint. destruct Hint as [Hc Hi].
    simpl. rewrite Hc. simpl.
    destruct frac as [|d1 frac]; simpl.
    + rewrite skip_digits_app by auto. reflexivity.
    + rewrite skip_digits_app;
        [| exact Hi | right; exists "."%char, (String d1 frac); split; reflexivity].
      apply all_digits_cons in Hfrac. destruct Hfrac as [H1 Hfrac].
      destruct frac as [|d2 frac]; [exact H1|].
      apply all_digits_cons in Hfrac. destruct Hfrac as [H2 Hfrac].
      destruct frac as [|d3 frac]; [|simpl in Hlen; lia].
      rewrite H1, H2. reflexivity.
Qed.

















End DecimalStrings.

(** ** The preferences editor: examples of a save *)

Module EditPreferencesSaveExamples.
Import Js EditPreferences Literals Examples Conditions EditPreferencesSave.

Lemma handleSavePreferences_reply_witness :
  editMode (fst (handleSavePreferences parseFloat_decimal response_ok executive_4000))
    = false /\
  editMode (fst (handleSavePreferences parseFloat_decimal fetch_rejected
                   (setEditMode true executive_4000)))
    = true.
Proof.
  assert (Hok : save_checks parseFloat_decimal executive_4000).
  { unfold save_checks. simpl.
    repeat split; try discriminate; try reflexivity. }
  split.
  - destruct (handleSavePreferences_reply parseFloat_decimal response_ok
                executive_4000 Hok) as (H & _).
    apply H. reflexivity.
  - assert (Hok' : save_checks parseFloat_decimal (setEditMode true executive_4000))
      by exact Hok.
    destruct (handleSavePreferences_reply parseFloat_decimal fetch_rejected
                (setEditMode true executive_4000) Hok') as (_ & H).
    apply H. discriminate.
Defined.


End EditPreferencesSaveExamples.

(** ** The account screens: sign-up and change of password *)

Module AccountFacts.
Import Chars Js JsString Screens Conditions AccountConditions.

Lemma includes_iff (l : list string) (x : option string) :
  includes l x = true <-> exists d, x = Some d /\ In d l.
Proof.
  destruct x as [v|]; simpl.
  - rewrite existsb_exists. split.
    + intros (y & Hy & E). apply String.eqb_eq in E. subst. eauto.
    + intros (d & E & Hd). injection E as ->. exists d.
      split; [exact Hd | apply String.eqb_refl].
  - split; [discriminate | intros (d & E & _); discriminate E].
Qed.

(** The five password tests, as one boolean chain. *)
Lemma strong_password_iff (pw : string) :
  strong_password pw <->
  (String.length pw <? 8)%nat = false /\
  negb (test_class is_upper pw) = false /\
  negb (test_class is_lower pw) = false /\
  negb (test_class is_special pw) = false /\
  negb (test_class is_digit pw) = false.
Proof.
  unfold strong_password. rewrite Nat.ltb_ge, !negb_false_iff. tauto.
Qed.

Section SignUpFacts.
Import SignUp.

Variable onLine : bool.
Variable isEmail : string -> bool.

Lemma handleSignup_cases (resp : reply) (st : state) :
  (signup_checks onLine isEmail st /\
   handleSignup onLine isEmail resp st =
     (setLoading false st,
      signup_request st ::
      match resp with
      | reply_json true _ =>
          [alert "Account created successfully!"; navigate "Login"]
      | reply_json false detail =>
          [alert (or_else detail "Failed to create account")]
      | reply_error message => [alert message]
      end)) \/
  (~ signup_checks onLine isEmail st /\
   exists message,
     handleSignup onLine isEmail resp st = (setLoading false st, [alert message])).
Proof.
  unfold handleSignup, signup_checks. cbn zeta.
  cbn [setLoading email password confirmPassword loading].
  destruct onLine; cbn [negb];
    [| right; split; [intros (H & _); discriminate H | eexists; reflexivity]].
  destruct (isEmail (email st)); cbn [negb orb];
    [| right; split; [intros (_ & H & _); discriminate H | eexists; reflexivity]].
  destruct (includes allowedDomains (nth_error (split_on "@" (email st)) 1)) eqn:Ed;
    cbn [negb].
  2:{ right. split; [|eexists; reflexivity].
      intros (_ & _ & (d & Hd & Hin) & _).
      assert (H : includes allowedDomains (nth_error (split_on "@" (email st)) 1) = true).
      { apply includes_iff. eauto. }
      congruence. }
  apply includes_iff in Ed.
  destruct (password st =? confirmPassword st) eqn:Em; cbn [negb].
  2:{ right. split; [|eexists; reflexivity].
      intros (_ & _ & _ & H & _). apply String.eqb_neq in Em. contradiction. }
  apply String.eqb_eq in Em.
  destruct (String.length (password st) <? 8)%nat eqn:E1;
    [right; split; [|eexists; reflexivity];
     intros (_ & _ & _ & _ & H); apply strong_password_iff in H;
     destruct H as (H & _); congruence |].
  destruct (negb (test_class is_upper (password st))) eqn:E2;
    [right; split; [|eexists; reflexivity];
     intros (_ & _ & _ & _ & H); apply strong_password_iff in H;
     destruct H as (_ & H & _); congruence |].
  destruct (negb (test_class is_lower (password st))) eqn:E3;
    [right; split; [|eexists; reflexivity];
     intros (_ & _ & _ & _ & H); apply strong_password_iff in H;
     destruct H as (_ & _ & H & _); congruence |].
  destruct (negb (test_class is_special (password st))) eqn:E4;
    [right; split; [|eexists; reflexivity];
     intros (_ & _ & _ & _ & H); apply strong_password_iff in H;
     destruct H as (_ & _ & _ & H & _); congruence |].
  destruct (negb (test_class is_digit (password st))) eqn:E5;
    [right; split; [|eexists; reflexivity];
     intros (_ & _ & _ & _ & H); apply strong_password_iff in H;
     destruct H as (_ & _ & _ & _ & H); congruence |].
  left. split.
  - split; [reflexivity|]. split; [reflexivity|]. split; [exact Ed|].
    split; [exact Em|]. apply strong_password_iff. auto.
  - destruct resp as [[] detail | message]; reflexivity.
Qed.

(** The account is sent exactly when the browser is online, the address
    passes [isEmail] and has one of the three providers after its first
    at sign, the two passwords are equal and the password is strong; the
    request then carries the address and the password as typed.  When a
    check fails the handler shows one alert and sends nothing. *)
Theorem handleSignup_sends_iff (resp : reply) (st : state) :
  let r := handleSignup onLine isEmail resp st in
  (signup_checks onLine isEmail st <-> hd_error (snd r) = Some (signup_request st)) /\
  (signup_checks onLine isEmail st <-> existsb is_request (snd r) = true) /\
  (~ signup_checks onLine isEmail st -> exists message, snd r = [alert message]).
Proof.
  cbv zeta.
  destruct (handleSignup_cases resp st) as [[Hok E] | [Hno (msg & E)]]; rewrite E.
  - split; [|split].
    + split; [reflexivity | intros _; exact Hok].
    + split; [reflexivity | intros _; exact Hok].
    + intro H. contradiction.
  - split; [|split].
    + split; [intro H; contradiction | discriminate].
    + split; [intro H; contradiction | discriminate].
    + intros _. exists msg. reflexivity.
Qed.

(** However the handler ends, the loading flag is off again, the three
    fields are as typed, exactly one alert is shown and at most one
    request is sent; the screen moves to Login only after a request that
    was answered [ok]. *)
Theorem handleSignup_always (resp : reply) (st : state) :
  let r := handleSignup onLine isEmail resp st in
  loading (fst r) = false /\
  email (fst r) = email st /\ password (fst r) = password st /\
  confirmPassword (fst r) = confirmPassword st /\
  length (filter is_alert (snd r)) = 1%nat /\
  (length (filter is_request (snd r)) <= 1)%nat /\
  (forall screen, In (navigate screen) (snd r) ->
     screen = "Login" /\ signup_checks onLine isEmail st /\
     exists detail, resp = reply_json true detail).
Proof.
  cbv zeta.
  destruct (handleSignup_cases resp st) as [[Hok E] | [Hno (msg & E)]]; rewrite E.
  - split; [reflexivity|]. split; [reflexivity|]. split; [reflexivity|].
    split; [reflexivity|].
    split; [destruct resp as [[] detail | message]; reflexivity|].
    split; [destruct resp as [[] detail | message]; simpl; lia|].
    intros screen Hin.
    destruct resp as [[] detail | message]; simpl in Hin;
      repeat (destruct Hin as [Hin | Hin]; try discriminate Hin);
      try contradiction.
    injection Hin as <-.
    split; [reflexivity|]. split; [exact Hok|]. exists detail. reflexivity.
  - split; [reflexivity|]. split; [reflexivity|]. split; [reflexivity|].
    split; [reflexivity|]. split; [reflexivity|]. split; [simpl; lia|].
    intros screen [Hin | []]. discriminate Hin.
Qed.

End SignUpFacts.

Section ChangePasswordFacts.
Import ChangePassword.

Variable onLine : bool.

Lemma strong_password_not_empty (pw : string) : strong_password pw -> falsy pw = false.
Proof.
  intros (H & _). destruct pw; [simpl in H; lia | reflexivity].
Qed.

Lemma handleChangePassword_cases (resp : reply) (st : state) :
  (change_checks onLine st /\
   handleChangePassword onLine resp st =
     (setLoading false st,
      change_request st ::
      match resp with
      | reply_json true _ =>
          [alert "Password updated successfully!"; navigate "Login"]
      | reply_json false detail =>
          [alert (or_else detail "Failed to update password.")]
      | reply_error _ =>
          [console_error "Error resetting password:";
           alert "There was an error resetting the password. Please try again."]
      end)) \/
  (~ change_checks onLine st /\
   exists message,
     (handleChangePassword onLine resp st = (st, [alert message]) \/
      handleChangePassword onLine resp st = (setLoading false st, [alert message]))).
Proof.
  unfold handleChangePassword, change_checks. cbn zeta.
  destruct (falsy (newPassword st) || falsy (confirmPassword st)) eqn:E0.
  { right. split; [|eexists; left; reflexivity].
    intros (Heq & Hs & _). rewrite <- Heq in E0.
    rewrite (strong_password_not_empty _ Hs) in E0. discriminate E0. }
  destruct (newPassword st =? confirmPassword st) eqn:Em; cbn [negb].
  2:{ right. split; [|eexists; left; reflexivity].
      intros (H & _). apply String.eqb_neq in Em. contradiction. }
  apply String.eqb_eq in Em.
  destruct (String.length (newPassword st) <? 8)%nat eqn:E1;
    [right; split; [|eexists; left; reflexivity];
     intros (_ & H & _); apply strong_password_iff in H;
     destruct H as (H & _); congruence |].
  destruct (negb (test_class is_upper (newPassword st))) eqn:E2;
    [right; split; [|eexists; left; reflexivity];
     intros (_ & H & _); apply strong_password_iff in H;
     destruct H as (_ & H & _); congruence |].
  destruct (negb (test_class is_lower (newPassword st))) eqn:E3;
    [right; split; [|eexists; left; reflexivity];
     intros (_ & H & _); apply strong_password_iff in H;
     destruct H as (_ & _ & H & _); congruence |].
  destruct (negb (test_class is_special (newPassword st))) eqn:E4;
    [right; split; [|eexists; left; reflexivity];
     intros (_ & H & _); apply strong_password_iff in H;
     destruct H as (_ & _ & _ & H & _); congruence |].
  destruct (negb (test_class is_digit (newPassword st))) eqn:E5;
    [right; split; [|eexists; left; reflexivity];
     intros (_ & H & _); apply strong_password_iff in H;
     destruct H as (_ & _ & _ & _ & H); congruence |].
  destruct onLine; cbn [negb].
  - left. split.
    + split; [exact Em|]. split; [|reflexivity].
      apply strong_password_iff. auto.
    + destruct resp as [[] detail | message]; reflexivity.
  - right. split; [intros (_ & _ & H); discriminate H|].
    eexists. right. reflexivity.
Qed.

(** The new password is sent exactly when the two entries are equal, the
    password is strong and the browser is online; the request carries the
    address of the route and the new password.  Otherwise one alert is
    shown and nothing is sent.  The fields are never changed, and the
    loading flag is never left on by the handler. *)
Theorem handleChangePassword_sends_iff (resp : reply) (st : state) :
  let r := handleChangePassword onLine resp st in
  (change_checks onLine st <-> hd_error (snd r) = Some (change_request st)) /\
  (~ change_checks onLine st -> exists message, snd r = [alert message]) /\
  email (fst r) = email st /\ newPassword (fst r) = newPassword st /\
  confirmPassword (fst r) = confirmPassword st /\
  (loading (fst r) = true -> loading st = true /\ fst r = st).
Proof.
  cbv zeta.
  destruct (handleChangePassword_cases resp st)
    as [[Hok E] | [Hno (msg & [E | E])]]; rewrite E.
  - split; [split; [reflexivity | intros _; exact Hok]|].
    split; [intro H; contradiction|].
    split; [reflexivity|]. split; [reflexivity|]. split; [reflexivity|].
    simpl. discriminate.
  - split; [split; [intro H; contradiction | discriminate]|].
    split; [intros _; exists msg; reflexivity|].
    split; [reflexivity|]. split; [reflexivity|]. split; [reflexivity|].
    simpl. intro H. split; [exact H | reflexivity].
  - split; [split; [intro H; contradiction | discriminate]|].
    split; [intros _; exists msg; reflexivity|].
    split; [reflexivity|]. split; [reflexivity|]. split; [reflexivity|].
    simpl. discriminate.
Qed.

End ChangePasswordFacts.

(** The two screens apply the same password rules: for an address the
    sign-up screen accepts and a non-empty password typed twice, both
    online, one screen sends its request exactly when the other does,
    that is when the password is strong; and when they refuse, they show
    the same alert. *)
Theorem password_rules_agree
    (isEmail : string -> bool) (address pw : string) (r1 r2 : reply) :
  pw <> "" ->
  isEmail address = true ->
  includes SignUp.allowedDomains (nth_error (split_on "@"%char address) 1) = true ->
  let signup :=
    snd (SignUp.handleSignup true isEmail r1 (SignUp.mk_state address pw pw false)) in
  let change :=
    snd (ChangePassword.handleChangePassword true r2
           (ChangePassword.mk_state address pw pw false)) in
  (existsb is_request signup = true <-> strong_password pw) /\
  (existsb is_request change = true <-> strong_password pw) /\
  (~ strong_password pw -> signup = change).
Proof.
  intros Hne Hmail Hdom. cbv zeta.
  unfold SignUp.handleSignup, ChangePassword.handleChangePassword. cbn zeta.
  cbn [SignUp.setLoading SignUp.email SignUp.password SignUp.confirmPassword
       ChangePassword.setLoading ChangePassword.email ChangePassword.newPassword
       ChangePassword.confirmPassword negb].
  rewrite Hmail, Hdom, String.eqb_refl.
  assert (Hf : falsy pw = false) by (apply String.eqb_neq; exact Hne).
  rewrite Hf. cbn [negb orb].
  rewrite strong_password_iff.
  destruct (String.length pw <? 8)%nat;
    [cbn; repeat split; try discriminate; intros (H & _); discriminate H |].
  destruct (negb (test_class is_upper pw));
    [cbn; repeat split; try discriminate; intros (_ & H & _); discriminate H |].
  destruct (negb (test_class is_lower pw));
    [cbn; repeat split; try discriminate; intros (_ & _ & H & _); discriminate H |].
  destruct (negb (test_class is_special pw));
    [cbn; repeat split; try discriminate; intros (_ & _ & _ & H & _); discriminate H |].
  destruct (negb (test_class is_digit pw));
    [cbn; repeat split; try discriminate; intros (_ & _ & _ & _ & H); discriminate H |].
  split; [|split].
  - split; [auto | intros _; destruct r1 as [[] d | m]; reflexivity].
  - split; [auto | intros _; destruct r2 as [[] d | m]; reflexivity].
  - intro H. exfalso. apply H. auto.
Qed.

Lemma password_rules_agree_witness :
  snd (SignUp.handleSignup true (fun _ => true) (reply_error "unused")
         (SignUp.mk_state "buyer@gmail.com" "Secret12" "Secret12" false))
  = snd (ChangePassword.handleChangePassword true (reply_error "unused")
           (ChangePassword.mk_state "buyer@gmail.com" "Secret12" "Secret12" false)).
Proof.
  destruct (password_rules_agree (fun _ => true) "buyer@gmail.com" "Secret12"
              (reply_error "unused") (reply_error "unused"))
    as (_ & _ & H); [discriminate | reflexivity | reflexivity |].
  apply H. intros (_ & _ & _ & Hsp & _). discriminate Hsp.
Defined.

End AccountFacts.

(** ** The map screen: titles, markers, phone numbers *)

Module HomeScreenFacts.
Import Chars Js JsString Conditions AccountConditions HomeScreen ListingCalculator.

Lemma lower_char_idem (c : ascii) : lower_char (lower_char c) = lower_char c.
Proof. destruct c as [[] [] [] [] [] [] [] []]; reflexivity. Qed.

Lemma lower_upper_lower (c : ascii) :
  lower_char (upper_char (lower_char c)) = lower_char c.
Proof. destruct c as [[] [] [] [] [] [] [] []]; reflexivity. Qed.

Lemma upper_lower_not_space (c : ascii) :
  Ascii.eqb (lower_char c) " "%char = false ->
  Ascii.eqb (upper_char (lower_char c)) " "%char = false.
Proof. destruct c as [[] [] [] [] [] [] [] []]; intro H; exact H || reflexivity. Qed.

Lemma split_on_cons (sep : ascii) (s : string) :
  exists w ws, split_on sep s = w :: ws.
Proof.
  induction s as [|c r (w & ws & E)]; simpl; [eauto|].
  destruct (Ascii.eqb c sep); [eauto|]. rewrite E. eauto.
Qed.

Lemma join_cons_char (sep : string) (c : ascii) (w : string) (ws : list string) :
  join sep (String c w :: ws) = String c (join sep (w :: ws)).
Proof. destruct ws; reflexivity. Qed.

Lemma join_cons_word (sep w x : string) (xs : list string) :
  join sep (w :: x :: xs) = w ++ sep ++ join sep (x :: xs).
Proof. reflexivity. Qed.

(** Splitting, capitalising and joining is the same as walking through
    the string once. *)
Lemma title_walk_join (s : string) :
  forall w ws, split_on " "%char (toLowerCase s) = w :: ws ->
  join " " (capitalize w :: map capitalize ws) = title_walk true s /\
  join " " (w :: map capitalize ws) = title_walk false s.
Proof.
  induction s as [|c r IH]; intros w ws E.
  - simpl in E. injection E as <- <-. split; reflexivity.
  - unfold toLowerCase in E. cbn [map_chars split_on] in E.
    fold (toLowerCase r) in E.
    cbn [title_walk]. cbv zeta.
    destruct (split_on_cons " "%char (toLowerCase r)) as (w' & ws' & E').
    destruct (IH w' ws' E') as [IHt IHf].
    destruct (Ascii.eqb (lower_char c) " "%char).
    + injection E as <- <-. rewrite E'. cbn [map].
      rewrite !join_cons_word, IHt. split; reflexivity.
    + rewrite E' in E. injection E as <- <-.
      cbn [capitalize]. rewrite !join_cons_char, IHf. split; reflexivity.
Qed.

Lemma toTitleCase_walk (s : string) : toTitleCase s = title_walk true s.
Proof.
  unfold toTitleCase.
  destruct (split_on_cons " "%char (toLowerCase s)) as (w & ws & E).
  rewrite E. apply (title_walk_join s w ws E).
Qed.

Lemma title_walk_length (b : bool) (s : string) :
  String.length (title_walk b s) = String.length s.
Proof.
  revert b. induction s as [|c r IH]; intro b; [reflexivity|].
  cbn [title_walk]. cbv zeta.
  destruct (Ascii.eqb (lower_char c) " "%char); simpl; f_equal; apply IH.
Qed.

Lemma title_walk_idem (b : bool) (s : string) :
  title_walk b (title_walk b s) = title_walk b s.
Proof.
  revert b. induction s as [|c r IH]; intro b; [reflexivity|].
  cbn [title_walk]. cbv zeta.
  destruct (Ascii.eqb (lower_char c) " "%char) eqn:E.
  - cbn [title_walk]. cbv zeta. change (lower_char " "%char) with " "%char.
    cbn [Ascii.eqb Bool.eqb]. f_equal. apply IH.
  - cbn [title_walk]. cbv zeta. destruct b.
    + rewrite lower_upper_lower, E. f_equal. apply IH.
    + rewrite lower_char_idem, E. f_equal. apply IH.
Qed.

Lemma title_walk_spaces (b : bool) (s : string) (n : nat) :
  String.get n (title_walk b s) = Some " "%char <-> String.get n s = Some " "%char.
Proof.
  revert b n. induction s as [|c r IH]; intros b n; [reflexivity|].
  cbn [title_walk]. cbv zeta.
  destruct (Ascii.eqb (lower_char c) " "%char) eqn:E.
  - destruct n as [|n]; simpl; [|apply IH].
    split; intros _; [|reflexivity].
    f_equal. revert E. clear.
    destruct c as [[] [] [] [] [] [] [] []]; intro E; cbv in E;
      try discriminate E; reflexivity.
  - destruct n as [|n]; simpl; [|apply IH].
    split; intro H; injection H as H; exfalso.
    + destruct b.
      * apply upper_lower_not_space in E. rewrite H in E. discriminate E.
      * rewrite H in E. discriminate E.
    + rewrite H in E. discriminate E.
Qed.

(** [toTitleCase] keeps the length of the string and the places of its
    spaces, and applying it a second time changes nothing. *)
Theorem toTitleCase_stable (str : string) :
  String.length (toTitleCase str) = String.length str /\
  toTitleCase (toTitleCase str) = toTitleCase str /\
  (forall n, String.get n (toTitleCase str) = Some " "%char <->
             String.get n str = Some " "%char).
Proof.
  rewrite !toTitleCase_walk. split; [|split].
  - apply title_walk_length.
  - apply title_walk_idem.
  - intro n. apply title_walk_spaces.
Qed.

(** The marker drawn for a classified listing: the default marker
    exactly when the classifier answered gray, that is when [float]
    refused the preferred price, the listing price or the CPF balance;
    otherwise the image named after the colour. *)
Theorem colorMarker_of_get_marker_color
    (float_of_str : string -> option Q)
    (p l s c : pyval) (ft color : string) :
  get_marker_color float_of_str p l s ft c = Return color ->
  (colorMarker color = "default" <->
   float float_of_str p = Raise ValueError \/
   float float_of_str l = Raise ValueError \/
   float float_of_str c = Raise ValueError) /\
  (colorMarker color <> "default" ->
   colorMarker color = "../../assets/marker-" ++ color ++ ".png").
Proof.
  intro Hres.
  destruct (ClassifierFacts.float_cases float_of_str p) as [[P Hp] | Hp].
  2:{ rewrite ClassifierFacts.get_marker_color_ValueError in Hres by auto.
      injection Hres as <-. split; [split; auto | intro H; contradiction H; reflexivity]. }
  destruct (ClassifierFacts.float_cases float_of_str l) as [[L Hl] | Hl].
  2:{ rewrite ClassifierFacts.get_marker_color_ValueError in Hres by auto.
      injection Hres as <-. split; [split; auto | intro H; contradiction H; reflexivity]. }
  destruct (ClassifierFacts.float_cases float_of_str c) as [[C Hc] | Hc].
  2:{ rewrite ClassifierFacts.get_marker_color_ValueError in Hres by auto.
      injection Hres as <-. split; [split; auto | intro H; contradiction H; reflexivity]. }
  rewrite (ClassifierFacts.get_marker_color_converted _ _ _ _ _ _ _ _ _ Hp Hl Hc)
    in Hres.
  destruct (calculate_grant s ft) as [t | e]; simpl in Hres; [|discriminate Hres].
  injection Hres as <-.
  destruct (ClassifierFacts.decide_color_cases P (adjusted_price L t C))
    as [H | [H | [H | []]]]; rewrite <- H; (split; [split|]).
  all: try discriminate; try reflexivity.
  all: intros [E | [E | E]]; congruence.
Qed.

Lemma colorMarker_of_get_marker_color_witness :
  colorMarker "gray" = "default" /\
  colorMarker "green" = "../../assets/marker-green.png".
Proof.
  split.
  - apply (colorMarker_of_get_marker_color Literals.float_of_decimal
             (PyNum 500000) (PyStr "abc") (PyNum 4000) (PyNum 20000) "4-Room" "gray");
      [reflexivity | right; left; reflexivity].
  - destruct (colorMarker_of_get_marker_color Literals.float_of_decimal
                (PyNum 500000) (PyStr "460000") (PyNum 4000) (PyNum 20000)
                "4-Room" "green" eq_refl) as (_ & H).
    apply H. discriminate.
Defined.

Lemma digit_toString (z : Z) :
  (0 <= z <= 9)%Z ->
  exists c, int_toString z = String c "" /\ is_digit c = true.
Proof.
  intro H.
  assert (Hz : (z = 0 \/ z = 1 \/ z = 2 \/ z = 3 \/ z = 4 \/ z = 5 \/ z = 6
               \/ z = 7 \/ z = 8 \/ z = 9)%Z) by lia.
  repeat (destruct Hz as [-> | Hz]; [eexists; split; reflexivity|]).
  subst. eexists; split; reflexivity.
Qed.

Lemma random_digit (r : Q) :
  (0 <= r)%Q -> (r < 1)%Q -> (0 <= Qfloor (r * 10) <= 9)%Z.
Proof.
  intros H0 H1. split.
  - change 0%Z with (Qfloor (inject_Z 0)). apply Qfloor_resp_le.
    change (inject_Z 0) with 0%Q. lra.
  - assert (H : (Qfloor (r * 10) < 10)%Z).
    { rewrite Zlt_Qlt. apply Qle_lt_trans with (r * 10)%Q; [apply Qfloor_le|].
      change (inject_Z 10) with 10%Q. lra. }
    lia.
Qed.

(** Whatever [Math.random] returns (always in the interval from 0 to
    1, 1 excluded), the agent's phone number has eight characters, all
    digits, and begins with 8 or 9. *)
Theorem generateRandomPhoneNumber_shape (random : nat -> Q) :
  (forall i, (i <= 7)%nat -> (0 <= random i)%Q /\ (random i < 1)%Q) ->
  let number := generateRandomPhoneNumber random in
  String.length number = 8%nat /\
  all_digits number /\
  (String.get 0 number = Some "8"%char \/ String.get 0 number = Some "9"%char).
Proof.
  intros Hr. cbv zeta. unfold generateRandomPhoneNumber.
  cbn [seq map join].
  destruct (digit_toString _ (random_digit _ (proj1 (Hr 1%nat ltac:(lia))) (proj2 (Hr 1%nat ltac:(lia)))))
    as (c1 & -> & H1).
  destruct (digit_toString _ (random_digit _ (proj1 (Hr 2%nat ltac:(lia))) (proj2 (Hr 2%nat ltac:(lia)))))
    as (c2 & -> & H2).
  destruct (digit_toString _ (random_digit _ (proj1 (Hr 3%nat ltac:(lia))) (proj2 (Hr 3%nat ltac:(lia)))))
    as (c3 & -> & H3).
  destruct (digit_toString _ (random_digit _ (proj1 (Hr 4%nat ltac:(lia))) (proj2 (Hr 4%nat ltac:(lia)))))
    as (c4 & -> & H4).
  destruct (digit_toString _ (random_digit _ (proj1 (Hr 5%nat ltac:(lia))) (proj2 (Hr 5%nat ltac:(lia)))))
    as (c5 & -> & H5).
  destruct (digit_toString _ (random_digit _ (proj1 (Hr 6%nat ltac:(lia))) (proj2 (Hr 6%nat ltac:(lia)))))
    as (c6 & -> & H6).
  destruct (digit_toString _ (random_digit _ (proj1 (Hr 7%nat ltac:(lia))) (proj2 (Hr 7%nat ltac:(lia)))))
    as (c7 & -> & H7).
  destruct (Qltb (random 0%nat) 0.5); cbn [append String.length String.get].
  - split; [reflexivity|]. split; [|right; reflexivity].
    repeat (apply Forall_cons; [assumption || reflexivity|]). constructor.
  - split; [reflexivity|]. split; [|left; reflexivity].
    repeat (apply Forall_cons; [assumption || reflexivity|]). constructor.
Qed.

Lemma generateRandomPhoneNumber_shape_witness :
  String.length (generateRandomPhoneNumber (fun i => Z.of_nat i # 10)) = 8%nat.
Proof.
  apply (generateRandomPhoneNumber_shape (fun i => Z.of_nat i # 10)).
  intros i Hi. unfold Qle, Qlt. simpl. lia.
Defined.

End HomeScreenFacts.

(** ** The verification code *)

Module ResetPasswordFacts.
Import ResetPassword.

Lemma check_step_iter (m k : N) (ok : bool) :
  fst (N.iter m check_step (k, ok)) = (k + m)%N /\
  (snd (N.iter m check_step (k, ok)) = true ->
   forall j, (j < m)%N -> six_characters (k + j) = true).
Proof.
  induction m as [|m IH] using N.peano_ind.
  - simpl. split; [lia | intros _ j Hj; lia].
  - rewrite N.iter_succ.
    destruct (N.iter m check_step (k, ok)) as [k' b] eqn:E.
    simpl in IH. destruct IH as [-> IH].
    unfold check_step. cbn [fst snd]. split; [lia|].
    intros H j Hj. apply andb_true_iff in H. destruct H as [Hb Hsix].
    destruct (N.eq_dec j m) as [-> | Hne]; [exact Hsix|].
    apply IH; [exact Hb | lia].
Qed.

Lemma check_codes_true :
  snd (N.iter 900000 check_step (100000%N, true)) = true.
Proof. vm_compute. reflexivity. Qed.

Lemma codes_checked (j : N) :
  (j < 900000)%N -> six_characters (100000 + j) = true.
Proof.
  intro Hj.
  exact (proj2 (check_step_iter 900000 100000 true) check_codes_true j Hj).
Qed.

Lemma six_characters_range (n : N) :
  (100000 <= n <= 999999)%N -> six_characters n = true.
Proof.
  intro H.
  replace n with (100000 + (n - 100000))%N by lia.
  apply codes_checked. lia.
Qed.

(** Whatever [Math.random] returns, the verification code lies between
    100000 and 999999 and the string stored for it has six characters. *)
Theorem generateVerificationCode_six_digits (random : Q) :
  (0 <= random)%Q -> (random < 1)%Q ->
  (100000 <= verification_code random <= 999999)%Z /\
  String.length (generateVerificationCode random) = 6%nat.
Proof.
  intros H0 H1.
  assert (Hrange : (100000 <= verification_code random <= 999999)%Z).
  { unfold verification_code. split.
    - assert (Hle : (inject_Z 100000 <= 100000 + random * 900000)%Q).
      { change (inject_Z 100000) with 100000%Q. lra. }
      apply Qfloor_resp_le in Hle. rewrite Qfloor_Z in Hle. exact Hle.
    - assert (H : (Qfloor (100000 + random * 900000) < 1000000)%Z).
      { rewrite Zlt_Qlt.
        apply Qle_lt_trans with (100000 + random * 900000)%Q; [apply Qfloor_le|].
        change (inject_Z 1000000) with 1000000%Q. lra. }
      lia. }
  split; [exact Hrange|].
  unfold generateVerificationCode, HomeScreen.int_toString.
  destruct (verification_code random) as [|p|p] eqn:E; try lia.
  assert (Hsix : six_characters (N.pos p) = true).
  { apply six_characters_range. lia. }
  unfold six_characters in Hsix. apply Nat.eqb_eq in Hsix. exact Hsix.
Qed.

Lemma generateVerificationCode_length (random : Q) :
  (0 <= random)%Q /\ (random < 1)%Q ->
  String.length (generateVerificationCode random) = 6%nat.
Proof.
  intros [H0 H1].
  assert (Hrange : (100000 <= verification_code random <= 999999)%Z).
  { unfold verification_code. split.
    - assert (Hle : (inject_Z 100000 <= 100000 + random * 900000)%Q).
      { change (inject_Z 100000) with 100000%Q. lra. }
      apply Qfloor_resp_le in Hle. rewrite Qfloor_Z in Hle. exact Hle.
    - assert (H : (Qfloor (100000 + random * 900000) < 1000000)%Z).
      { rewrite Zlt_Qlt.
        apply Qle_lt_trans with (100000 + random * 900000)%Q; [apply Qfloor_le|].
        change (inject_Z 1000000) with 1000000%Q. lra. }
      lia. }
  unfold generateVerificationCode, HomeScreen.int_toString.
  destruct (verification_code random) as [|p|p] eqn:E; try lia.
  assert (Hsix : six_characters (N.pos p) = true).
  { apply six_characters_range. lia. }
  unfold six_characters in Hsix. apply Nat.eqb_eq in Hsix. exact Hsix.
Qed.

Lemma generateVerificationCode_six_digits_witness :
  String.length (generateVerificationCode 0.5) = 6%nat.
Proof.
  apply (generateVerificationCode_six_digits 0.5); [discriminate | reflexivity].
Defined.

End ResetPasswordFacts.

(** ** The grant shown by the editor and the grant used by the classifier *)

Module GrantConsistency.
Import Js EditPreferences ListingCalculator.

Section WithParseFloat.

Variable parseFloat : string -> jsnum.

(** For a salary up to 7000 the editor shows the singles grant that the
    classifier uses exactly for the types 2-Room to 5-Room: for every
    other type the editor shows 25000 or 40000 where the classifier
    counts nothing. *)
Theorem singlesGrant_agrees_iff (x : Q) (flat_type : string) :
  (x <= 7000)%Q ->
  (Z.of_N (singlesGrant flat_type)
     = singles_grant (calculate_grant_locals x flat_type) <->
   In flat_type ["2-Room"; "3-Room"; "4-Room"; "5-Room"]).
Proof.
  intro Hx. rewrite (ListingCalculatorFacts.calculate_grant_locals_low _ _ Hx).
  cbn zeta. cbn [singles_grant]. split.
  - intro H.
    destruct (in_tuple flat_type ["2-Room"; "3-Room"; "4-Room"]) eqn:E3.
    + apply ListingCalculatorFacts.in_tuple_In in E3.
      destruct E3 as [E | [E | [E | []]]]; rewrite <- E; simpl; auto.
    + destruct (flat_type =? "5-Room") eqn:E5.
      * apply String.eqb_eq in E5. rewrite E5. simpl; auto.
      * exfalso. unfold singlesGrant in H. rewrite E5 in H.
        destruct (flat_type =? "Executive"); discriminate H.
  - intros [E | [E | [E | [E | []]]]]; rewrite <- E; reflexivity.
Qed.

(** When the salary field reads as a number [x], the editor's message
    and the classifier's grant tell the same story for the types 2-Room
    to 5-Room: above 7000 no grant on either side; up to 7000 the amount
    in the message is the grant [calculate_grant] returns. *)
Theorem checkGrantEligibility_shows_calculate_grant (st : state) (x : Q) :
  parseFloat (salary st) = JNum x ->
  let total := total_grants (calculate_grant_locals x (hdbType st)) in
  calculate_grant (PyNum x) (hdbType st) = Return total /\
  ((7000 < x)%Q ->
   checkGrantEligibility parseFloat st = "Not eligible for any grants." /\
   total = 0%Z) /\
  (In (hdbType st) ["2-Room"; "3-Room"; "4-Room"; "5-Room"] ->
   ((x <= 4500)%Q ->
    checkGrantEligibility parseFloat st =
      "Eligible for: HDB Singles Grant and Enhanced CPF Housing Grant. "
        ++ LF ++ "Total Amount: $" ++ formatAmount (Z.to_N total)) /\
   ((4500 < x)%Q -> (x <= 7000)%Q ->
    checkGrantEligibility parseFloat st =
      "Eligible for: HDB Singles Grant. "
        ++ LF ++ "Amount: $" ++ formatAmount (Z.to_N total))).
Proof.
  intros Hsal. cbv zeta. split; [reflexivity|]. split.
  - intro Hx.
    rewrite (ListingCalculatorFacts.calculate_grant_locals_high _ _ Hx).
    split; [|reflexivity].
    unfold checkGrantEligibility. rewrite Hsal. simpl.
    apply Qle_bool_false_iff in Hx. rewrite Hx. reflexivity.
  - intro Hin. split.
    + intro Hx.
      assert (H7 : (x <= 7000)%Q) by lra.
      rewrite (ListingCalculatorFacts.calculate_grant_locals_low _ _ H7).
      unfold checkGrantEligibility. rewrite Hsal. simpl jle.
      apply Qle_bool_iff in H7, Hx. rewrite H7, Hx.
      cbn zeta. cbn [total_grants].
      destruct Hin as [E | [E | [E | [E | []]]]]; rewrite <- E; reflexivity.
    + intros Hx H7.
      rewrite (ListingCalculatorFacts.calculate_grant_locals_low _ _ H7).
      unfold checkGrantEligibility. rewrite Hsal. simpl jle.
      apply Qle_bool_iff in H7. apply Qle_bool_false_iff in Hx. rewrite H7, Hx.
      cbn zeta. cbn [total_grants].
      destruct Hin as [E | [E | [E | [E | []]]]]; rewrite <- E; reflexivity.
Qed.

End WithParseFloat.

Import Literals Examples.

Lemma singlesGrant_agrees_iff_witness :
  Z.of_N (singlesGrant "5-Room")
  = singles_grant (calculate_grant_locals 4000 "5-Room").
Proof.
  apply (singlesGrant_agrees_iff 4000 "5-Room");
    [vm_compute; discriminate | simpl; auto].
Defined.

Lemma checkGrantEligibility_shows_calculate_grant_witness :
  checkGrantEligibility parseFloat_decimal
    (mk_state false "6000" "15000" "4-Room" "300000" "HDB Housing Loan" ""
              "buyer@example.com")
  = "Eligible for: HDB Singles Grant. " ++ LF ++ "Amount: $40,000".
Proof.
  destruct (checkGrantEligibility_shows_calculate_grant parseFloat_decimal
              (mk_state false "6000" "15000" "4-Room" "300000" "HDB Housing Loan" ""
                        "buyer@example.com") 6000 eq_refl)
    as (_ & _ & H).
  destruct H as (_ & H); [simpl; auto|].
  rewrite H; [reflexivity | reflexivity | vm_compute; discriminate].
Defined.

End GrantConsistency.

(** ** The reset-password screen as a session *)

Module ResetPasswordSession.
Import Js Screens ResetPassword ResetPasswordConditions.








(** The code is not tied to the address it was mailed to: after a code
    was mailed to [A], the address field can be changed to [B]; entering
    the code then opens the change-password screen for [B]. *)
Theorem reset_session_address_unbound (A B : string) (random : Q) :
  A <> "" -> (0 <= random)%Q -> (random < 1)%Q ->
  let code := generateVerificationCode random in
  run [type_email A;
       press_send true (verify_json true true) random;
       type_email B;
       type_code code;
       press_verify] initial
  = (mk_state B code code true false false,
     [fetch_POST "http://127.0.0.1:8000/verify-user" [("email", A)];
      console_log ("Verification code sent to " ++ A ++ ": " ++ code);
      alert ("A verification code has been sent to your email: " ++ A);
      code_mail A code;
      alert "Code verified! You can now reset your password.";
      navigate_with "Change" [("email", B)]]).
Proof.
  intros HA H0 H1. cbv zeta.
  assert (Hlen : String.length (generateVerificationCode random) = 6%nat).
  { apply ResetPasswordFacts.generateVerificationCode_length. split; assumption. }
  assert (HfA : falsy A = false) by (apply String.eqb_neq; exact HA).
  unfold run, step, available, handleSendVerificationCode, handleVerifyCode.
  cbv zeta.
  revert Hlen. generalize (generateVerificationCode random). intros code Hlen.
  cbn [initial setEmail setVerificationCode setLoading setIsCodeSent
       setGeneratedCode email verificationCode generatedCode isCodeSent
       loading verifying negb andb].
  rewrite HfA.
  cbn [setEmail setVerificationCode setLoading setIsCodeSent
       setGeneratedCode email verificationCode generatedCode isCodeSent
       loading verifying negb andb].
  rewrite Hlen. cbn [Nat.leb andb].
  cbn [setEmail setVerificationCode setLoading setIsCodeSent
       setGeneratedCode email verificationCode generatedCode isCodeSent
       loading verifying negb andb].
  rewrite String.eqb_refl. reflexivity.
Qed.


Lemma reset_session_address_unbound_witness :
  snd (run [type_email "a@gmail.com";
            press_send true (verify_json true true) 0.5;
            type_email "b@gmail.com";
            type_code "550000";
            press_verify] initial)
  = [fetch_POST "http://127.0.0.1:8000/verify-user" [("email", "a@gmail.com")];
     console_log "Verification code sent to a@gmail.com: 550000";
     alert "A verification code has been sent to your email: a@gmail.com";
     code_mail "a@gmail.com" "550000";
     alert "Code verified! You can now reset your password.";
     navigate_with "Change" [("email", "b@gmail.com")]].
Proof.
  assert (HA : "a@gmail.com" <> "") by discriminate.
  assert (H0 : (0 <= 0.5)%Q) by discriminate.
  assert (H1 : (0.5 < 1)%Q) by reflexivity.
  exact (f_equal snd
           (reset_session_address_unbound "a@gmail.com" "b@gmail.com" 0.5 HA H0 H1)).
Defined.

End ResetPasswordSession.

(** ** The chat of the preferences editor *)

Module ChatFacts.
Import Chars Js Chat.





End ChatFacts.

(** ** The images of the listings *)

Module RoomImagesFacts.
Import Js RoomImages.

Lemma available_spec (n : nat) (o : images_object) (j : nat) :
  In j (availableIndices n o) <-> (j < n)%nat /\ ~ In j (values o).
Proof.
  unfold availableIndices. rewrite filter_In, in_seq, negb_true_iff.
  split; intros [H1 H2]; (split; [lia|]).
  - intro Hin. assert (H : existsb (Nat.eqb j) (values o) = true).
    { apply existsb_exists. exists j. split; [exact Hin | apply Nat.eqb_refl]. }
    congruence.
  - destruct (existsb (Nat.eqb j) (values o)) eqn:E; [|reflexivity].
    apply existsb_exists in E. destruct E as (x & Hx & Ex).
    apply Nat.eqb_eq in Ex. subst. contradiction.
Qed.

Lemma random_index_in (r : Q) (l : list nat) :
  (0 <= r)%Q -> (r < 1)%Q -> l <> [] ->
  In (nth (Z.to_nat (Qfloor (r * inject_Z (Z.of_nat (List.length l))))) l 0%nat) l.
Proof.
  intros H0 H1 Hl. apply nth_In.
  assert (Hpos : (0 < List.length l)%nat).
  { destruct l; [contradiction | simpl; lia]. }
  set (n := Z.of_nat (List.length l)).
  assert (Hn : (0 < inject_Z n)%Q).
  { change 0%Q with (inject_Z 0). rewrite <- Zlt_Qlt. unfold n. lia. }
  assert (Hlo : (0 <= Qfloor (r * inject_Z n))%Z).
  { assert (H : (inject_Z 0 <= r * inject_Z n)%Q).
    { change (inject_Z 0) with 0%Q. apply Qmult_le_0_compat; [exact H0|].
      apply Qlt_le_weak. exact Hn. }
    apply Qfloor_resp_le in H. rewrite Qfloor_Z in H. exact H. }
  assert (Hhi : (Qfloor (r * inject_Z n) < n)%Z).
  { rewrite Zlt_Qlt.
    apply Qle_lt_trans with (r * inject_Z n)%Q; [apply Qfloor_le|].
    rewrite <- (Qmult_1_l (inject_Z n)) at 2.
    apply Qmult_lt_compat_r; assumption. }
  subst n. lia.
Qed.

Lemma lookup_assign_same (key : string) (v : nat) (o : images_object) :
  lookup key (assign key v o) = Some v.
Proof.
  induction o as [|[k w] rest IH]; simpl.
  - rewrite String.eqb_refl. reflexivity.
  - destruct (k =? key) eqn:E; simpl; rewrite E; [reflexivity | exact IH].
Qed.

Lemma lookup_assign_other (key k' : string) (v : nat) (o : images_object) :
  k' <> key -> lookup k' (assign key v o) = lookup k' o.
Proof.
  intro Hne. induction o as [|[k w] rest IH]; simpl.
  - assert (E : (key =? k') = false) by (apply String.eqb_neq; congruence).
    rewrite E. reflexivity.
  - destruct (k =? key) eqn:E; simpl.
    + apply String.eqb_eq in E. subst k.
      assert (E' : (key =? k') = false) by (apply String.eqb_neq; congruence).
      rewrite E'. reflexivity.
    + destruct (k =? k'); [reflexivity | exact IH].
Qed.

Lemma values_assign_in (key : string) (j v : nat) (o : images_object) :
  In v (values (assign key j o)) -> v = j \/ In v (values o).
Proof.
  induction o as [|[k w] rest IH]; simpl.
  - intros [H | []]. auto.
  - destruct (k =? key); simpl.
    + intros [H | H]; auto.
    + intros [H | H]; auto. destruct (IH H); auto.
Qed.

Lemma values_assign_NoDup (key : string) (j : nat) (o : images_object) :
  NoDup (values o) -> ~ In j (values o) -> NoDup (values (assign key j o)).
Proof.
  induction o as [|[k w] rest IH]; simpl; intros Hnd Hj.
  - constructor; [intros [] | constructor].
  - inversion Hnd as [|x l Hx Hl]; subst.
    destruct (k =? key); simpl.
    + constructor; [tauto | exact Hl].
    + constructor.
      * intro Hin. apply values_assign_in in Hin. destruct Hin as [-> | Hin]; tauto.
      * apply IH; tauto.
Qed.

(** An address that holds an image other than the first gets that image
    back, and nothing is written. *)
Theorem fetchRoomImage_hit
    (propertyImages : list string) (random : Q) (block street_name : string)
    (o : images_object) (i : nat) :
  lookup (block ++ " " ++ street_name) o = Some i -> i <> 0%nat ->
  fetchRoomImage propertyImages random block street_name (Some o)
  = (nth_error propertyImages i, []).
Proof.
  intros Hl Hi. unfold fetchRoomImage. cbn zeta. rewrite Hl.
  destruct i as [|i]; [contradiction | reflexivity].
Qed.

(** An address without an image, or one that holds the first image
    (index 0, which the test takes for none), is given an image that no
    address holds: the object written maps the address to it and leaves
    the other addresses as they were; if no two addresses shared an image
    before, none do after.  An address that held image 0 thus moves to
    another image. *)
Theorem fetchRoomImage_assigns
    (propertyImages : list string) (random : Q) (block street_name : string)
    (o : images_object) :
  let key := block ++ " " ++ street_name in
  (0 <= random)%Q -> (random < 1)%Q ->
  lookup key o = None \/ lookup key o = Some 0%nat ->
  availableIndices (List.length propertyImages) o <> [] ->
  exists (j : nat) (url : string),
    fetchRoomImage propertyImages random block street_name (Some o)
      = (Some url, [setItem (assign key j o)]) /\
    nth_error propertyImages j = Some url /\
    ~ In j (values o) /\
    lookup key (assign key j o) = Some j /\
    (forall k', k' <> key -> lookup k' (assign key j o) = lookup k' o) /\
    (NoDup (values o) -> NoDup (values (assign key j o))) /\
    (lookup key o = Some 0%nat -> j <> 0%nat).
Proof.
  cbv zeta. intros H0 H1 Hkey Hav.
  set (key := block ++ " " ++ street_name) in *.
  set (available := availableIndices (List.length propertyImages) o) in *.
  set (j := nth (Z.to_nat (Qfloor (random * inject_Z (Z.of_nat (List.length available)))))
                available 0%nat).
  assert (Hj : In j available) by (apply random_index_in; assumption).
  apply available_spec in Hj. destruct Hj as [Hlt Hfresh].
  destruct (nth_error propertyImages j) as [url|] eqn:Eurl;
    [| apply nth_error_None in Eurl; lia].
  exists j, url.
  assert (Hlen : (List.length available =? 0)%nat = false).
  { apply Nat.eqb_neq. destruct available; [contradiction | discriminate]. }
  split.
  { unfold fetchRoomImage. cbn zeta. fold key. fold available.
    destruct Hkey as [-> | ->]; rewrite Hlen; fold j; rewrite Eurl; reflexivity. }
  split; [exact Eurl|]. split; [exact Hfresh|].
  split; [apply lookup_assign_same|].
  split; [intros k' Hk; apply lookup_assign_other; exact Hk|].
  split; [intro Hnd; apply values_assign_NoDup; assumption|].
  intros Hzero ->. apply Hfresh.
  clear - Hzero. induction o as [|[k w] rest IH]; simpl in *; [discriminate|].
  destruct (k =? key); [injection Hzero as ->; auto | right; auto].
Qed.

(** When every image is held by some address, an address without an
    image gets none: the call returns [null], logs the shortage and
    writes nothing. *)
Theorem fetchRoomImage_exhausted
    (propertyImages : list string) (random : Q) (block street_name : string)
    (o : images_object) :
  let key := block ++ " " ++ street_name in
  lookup key o = None \/ lookup key o = Some 0%nat ->
  (forall j, (j < List.length propertyImages)%nat -> In j (values o)) ->
  fetchRoomImage propertyImages random block street_name (Some o)
  = (None, [console_error "No more unique images available"]).
Proof.
  cbv zeta. intros Hkey Hall.
  assert (Hav : availableIndices (List.length propertyImages) o = []).
  { destruct (availableIndices (List.length propertyImages) o) as [|j l] eqn:E;
      [reflexivity|].
    assert (Hin : In j (availableIndices (List.length propertyImages) o))
      by (rewrite E; left; reflexivity).
    apply available_spec in Hin. destruct Hin as [Hlt Hfresh].
    exfalso. apply Hfresh. apply Hall. exact Hlt. }
  unfold fetchRoomImage. cbn zeta. rewrite Hav.
  destruct Hkey as [-> | ->]; reflexivity.
Qed.

Lemma fetchRoomImage_hit_witness :
  fetchRoomImage ["u0"; "u1"; "u2"] 0.5 "12" "ANG MO KIO"
    (Some [("1 A", 2%nat); ("12 ANG MO KIO", 1%nat)])
  = (Some "u1", []).
Proof.
  apply (fetchRoomImage_hit ["u0"; "u1"; "u2"] 0.5 "12" "ANG MO KIO"
           [("1 A", 2%nat); ("12 ANG MO KIO", 1%nat)] 1);
    [reflexivity | discriminate].
Defined.

Lemma fetchRoomImage_assigns_witness :
  exists j url,
    fetchRoomImage ["u0"; "u1"; "u2"] 0.5 "12" "ANG MO KIO"
      (Some [("1 A", 2%nat); ("12 ANG MO KIO", 0%nat)])
    = (Some url, [setItem (assign "12 ANG MO KIO" j
                             [("1 A", 2%nat); ("12 ANG MO KIO", 0%nat)])]) /\
    j <> 0%nat.
Proof.
  destruct (fetchRoomImage_assigns ["u0"; "u1"; "u2"] 0.5 "12" "ANG MO KIO"
              [("1 A", 2%nat); ("12 ANG MO KIO", 0%nat)])
    as (j & url & E & _ & _ & _ & _ & _ & Hz).
  - discriminate.
  - reflexivity.
  - right. reflexivity.
  - discriminate.
  - exists j, url. split; [exact E | apply Hz; reflexivity].
Defined.

Lemma fetchRoomImage_exhausted_witness :
  fetchRoomImage ["u0"; "u1"] 0.5 "12" "ANG MO KIO"
    (Some [("1 A", 1%nat); ("2 B", 0%nat)])
  = (None, [console_error "No more unique images available"]).
Proof.
  apply (fetchRoomImage_exhausted ["u0"; "u1"] 0.5 "12" "ANG MO KIO"
           [("1 A", 1%nat); ("2 B", 0%nat)]).
  - left. reflexivity.
  - intros j Hj. simpl in *.
    destruct j as [|[|j]]; [right; left; reflexivity | left; reflexivity | lia].
Defined.

End RoomImagesFacts.
